(** * Wasabi single-file uploader (app.py): a shallow embedding

    The module initialisation of [app.py] and its single request handler
    [index] are embedded as computations in a small state-and-exception
    monad.  The state records every call made to the boto3 client and the
    number of UUIDs drawn so far; the answers of the object store, the random
    UUID source and werkzeug's [secure_filename] are parameters. *)

From Stdlib Require Import String Ascii List Bool Arith Lia.
Import ListNotations.
Open Scope string_scope.

(** ** Python string primitives used by the source *)

Module Py.

(** Python strings are modelled as Rocq strings whose characters stand for the
    code points below 256. *)

Definition dquote : ascii := ascii_of_nat 34.
Definition squote : ascii := ascii_of_nat 39.
Definition backslash : ascii := ascii_of_nat 92.

(** [needle in hay] on strings. *)
Fixpoint contains (needle hay : string) : bool :=
  String.prefix needle hay ||
  match hay with
  | EmptyString => false
  | String _ rest => contains needle rest
  end.

(** [c in s] for a single character. *)
Fixpoint has_char (c : ascii) (s : string) : bool :=
  match s with
  | EmptyString => false
  | String d rest => Ascii.eqb c d || has_char c rest
  end.

Fixpoint all_chars (p : ascii -> bool) (s : string) : bool :=
  match s with
  | EmptyString => true
  | String c rest => p c && all_chars p rest
  end.

(** [str.isspace] on code points below 256. *)
Definition isspace (c : ascii) : bool :=
  let n := nat_of_ascii c in
  (((9 <=? n) && (n <=? 13)) || ((28 <=? n) && (n <=? 32))
   || (n =? 133) || (n =? 160))%nat.

Fixpoint lstrip (p : ascii -> bool) (s : string) : string :=
  match s with
  | EmptyString => EmptyString
  | String c rest => if p c then lstrip p rest else s
  end.

Fixpoint rstrip (p : ascii -> bool) (s : string) : string :=
  match s with
  | EmptyString => EmptyString
  | String c rest =>
      match rstrip p rest with
      | EmptyString => if p c then EmptyString else String c EmptyString
      | r => String c r
      end
  end.

(** [s.strip()] and [s.strip(chars)]. *)
Definition strip (s : string) : string := rstrip isspace (lstrip isspace s).
Definition strip_chars (chars s : string) : string :=
  rstrip (fun c => has_char c chars) (lstrip (fun c => has_char c chars) s).

(** Truth value of an optional string: [None] and [""] are false. *)
Definition truthy (o : option string) : bool :=
  match o with
  | None => false
  | Some EmptyString => false
  | Some _ => true
  end.

(** [str.isprintable] on code points below 256. *)
Definition isprintable (c : ascii) : bool :=
  let n := nat_of_ascii c in
  (((32 <=? n) && (n <? 127)) || ((161 <=? n) && negb (n =? 173)))%nat.

Definition hexdigit (n : nat) : ascii :=
  if (n <? 10)%nat then ascii_of_nat (48 + n) else ascii_of_nat (87 + n).

(** The escape [repr] writes for one character inside quotes [q]. *)
Definition repr_char (q c : ascii) : string :=
  let n := nat_of_ascii c in
  if Ascii.eqb c q || Ascii.eqb c backslash then String backslash (String c EmptyString)
  else if (n =? 9)%nat then String backslash "t"
  else if (n =? 10)%nat then String backslash "n"
  else if (n =? 13)%nat then String backslash "r"
  else if isprintable c then String c EmptyString
  else String backslash (String "x" (String (hexdigit (n / 16)) (String (hexdigit (n mod 16)) EmptyString))).

Fixpoint repr_body (q : ascii) (s : string) : string :=
  match s with
  | EmptyString => EmptyString
  | String c rest => repr_char q c ++ repr_body q rest
  end.

(** [repr(s)] for a string: single quotes unless the string holds a single
    quote and no double quote. *)
Definition repr_quote (s : string) : ascii :=
  if has_char squote s && negb (has_char dquote s) then dquote else squote.

Definition repr (s : string) : string :=
  String (repr_quote s) (repr_body (repr_quote s) s ++ String (repr_quote s) EmptyString).

(** [repr] of an optional string ([None] prints as [None]) and the [str] an
    f-string writes for it. *)
Definition repr_opt (o : option string) : string :=
  match o with None => "None" | Some s => repr s end.
Definition str_opt (o : option string) : string :=
  match o with None => "None" | Some s => s end.

(** The slices [s[:n]] and [s[-n:]] for a positive [n]. *)
Fixpoint take (n : nat) (s : string) : string :=
  match n, s with
  | S n', String c rest => String c (take n' rest)
  | _, _ => EmptyString
  end.

Fixpoint drop (n : nat) (s : string) : string :=
  match n, s with
  | S n', String _ rest => drop n' rest
  | _, _ => s
  end.

Definition take_last (n : nat) (s : string) : string :=
  drop (String.length s - n) s.

End Py.

(** ** Exceptions, the boto3 client and the monad of the program *)

(** The [response] dict of a botocore [ClientError]: the optional ["Error"]
    entry with its optional ["Code"] and ["Message"].  A [ClientError] is
    built from a dict on which botocore has already performed these lookups,
    so the lookups of [_err_text] cannot raise. *)
Record error_dict := { Code : option string; Message : option string }.
Record client_error := { response_Error : option error_dict }.

Inductive exn :=
| ClientError (e : client_error)
| AttributeError (what : string)
| OtherError (class : string).
(** [OtherError] stands for every exception class that is not a
    [ClientError]: connection errors, parameter validation errors, ... *)

(** The calls the program makes on boto3.  A bucket is optional because
    [WASABI_BUCKET] may be [None]. *)
Inductive call :=
| NewSession (access_key secret_key region_name : string)
| NewClient (endpoint_url : string)
| ListBuckets
| HeadBucket (Bucket : option string)
| PutObject (Bucket : option string) (Key : string) (Body : string) (ContentType : string)
| PresignGetObject (Bucket : option string) (Key : string) (ExpiresIn : nat).

Inductive outcome :=
| Returns (value : string)
| Raises (e : exn).

(** The state the program runs in: the calls made so far, oldest first, and
    the number of UUIDs drawn from the random source. *)
Record world := { log : list call; draws : nat }.

Inductive result (A : Type) :=
| Ret (a : A)
| Raise (e : exn).
Arguments Ret {A} a.
Arguments Raise {A} e.

Definition record_call (c : call) (w : world) : world :=
  {| log := (log w ++ [c])%list; draws := draws w |}.

Definition M (A : Type) : Type := world -> result A * world.

Definition ret {A} (a : A) : M A := fun w => (Ret a, w).
Definition raise {A} (e : exn) : M A := fun w => (Raise e, w).
Definition bind {A B} (m : M A) (k : A -> M B) : M B :=
  fun w => match m w with
           | (Ret a, w') => k a w'
           | (Raise e, w') => (Raise e, w')
           end.

Declare Scope py_scope.
Delimit Scope py_scope with py.
Notation "x <- m ;; k" := (bind m (fun x => k))
  (at level 100, m at next level, right associativity) : py_scope.
Notation "m ;;; k" := (bind m (fun _ => k))
  (at level 100, right associativity) : py_scope.

(** [try: m  except ClientError as e: h e]: every other exception passes. *)
Definition try_except_ClientError {A} (m : M A) (h : client_error -> M A) : M A :=
  fun w => match m w with
           | (Raise (ClientError e), w') => h e w'
           | r => r
           end.

(** Whether a call returned, and the kinds of call: creating the session or
    the client and presigning send nothing to the store. *)
Definition succeeded (o : outcome) : bool :=
  match o with Returns _ => true | Raises _ => false end.

Definition is_store_call (c : call) : bool :=
  match c with
  | ListBuckets | HeadBucket _ | PutObject _ _ _ _ => true
  | _ => false
  end.

Definition is_put (c : call) : bool :=
  match c with PutObject _ _ _ _ => true | _ => false end.

Definition is_list_buckets (c : call) : bool :=
  match c with ListBuckets => true | _ => false end.

(** ** Requests and pages *)

Inductive http_method := GET | HEAD | POST.

(** A werkzeug [FileStorage]; it is false as a condition when its filename is
    empty. *)
Record FileStorage := { filename : string; stream : string; mimetype : string }.

(** [files] is the value of [request.files.get("file")]. *)
Record request := { method : http_method; files : option FileStorage }.

(** The variables [render_template_string] is given; the template shows the
    block of [url], [error] and [startup_error] when the variable is true. *)
Record page := {
  url : option string;
  error : option string;
  startup_error : option string;
  endpoint : string;
  region : option string;
  bucket : option string }.

(** The error message of the page a handler returned, if it returned one. *)
Definition error_of (r : result page) : option string :=
  match r with Ret p => error p | Raise _ => None end.

(** The module's globals once initialisation is over: the five configuration
    values as [_env] returned them, the host of the client's endpoint and the
    result of the startup check. *)
Record app := {
  WASABI_ACCESS_KEY : option string;
  WASABI_SECRET_KEY : option string;
  WASABI_REGION : option string;
  WASABI_ENDPOINT : option string;
  WASABI_BUCKET : option string;
  s3_endpoint_host : string;
  _auth_ok : bool;
  _auth_err : option string }.

(** [os.environ] after [load_dotenv()]. *)
Definition environ := string -> option string.

(** [_env]: read and trim; empty becomes [None].  [required] is not used. *)
Definition _env (environ : environ) (name : string) (required : bool)
    (default : option string) : option string :=
  let v := match environ name with Some x => Some x | None => default end in
  match v with
  | None => None
  | Some v => let v := Py.strip v in
              if String.eqb v "" then None else Some v
  end.

(** [x.strip()] where [x] may be [None]. *)
Definition strip_attr (x : option string) : M string :=
  match x with
  | None => raise (AttributeError "'NoneType' object has no attribute 'strip'")
  | Some s => ret (Py.strip s)
  end.

Definition _err_text (e : client_error) : string :=
  let err := match response_Error e with
             | Some d => d
             | None => {| Code := None; Message := None |}
             end in
  Py.str_opt (Code err) ++ ": " ++ Py.str_opt (Message err).

(** The code and the message a [ClientError] carries; an error without an
    ["Error"] entry carries neither. *)
Definition carries (e : client_error) (code msg : option string) : Prop :=
  response_Error e = Some {| Code := code; Message := msg |}
  \/ (response_Error e = None /\ code = None /\ msg = None).

(** [_mask]: what the startup prints of a key. *)
Definition _mask (k : option string) : string :=
  match k with
  | Some s =>
      if negb (String.eqb s "") && (8 <? String.length s)%nat
      then Py.take 4 s ++ ".." ++ Py.take_last 4 s
      else s
  | None => ""
  end.

(** The bucket a call is about, for the calls that name one. *)
Definition call_bucket (c : call) : option (option string) :=
  match c with
  | HeadBucket b | PutObject b _ _ _ | PresignGetObject b _ _ => Some b
  | _ => None
  end.

(** ** The program *)

Section Program.

Local Open Scope py_scope.

(** What the boto3 client answers to a call, given the calls made before it;
    the random source behind [uuid.uuid4()], by draw number, already as the
    string an f-string writes; werkzeug's [secure_filename]. *)
Variable s3 : list call -> call -> outcome.
Variable uuid_source : nat -> string.
Variable secure_filename : string -> string.

Definition boto3 (c : call) : M string :=
  fun w => (match s3 (log w) c with
            | Returns v => Ret v
            | Raises e => Raise e
            end, record_call c w).

Definition uuid4 : M string :=
  fun w => (Ret (uuid_source (draws w)), {| log := log w; draws := S (draws w) |}).

Definition auth_ok : M (bool * option string) :=
  try_except_ClientError
    (boto3 ListBuckets ;;; ret (true, None))
    (fun e => let msg := _err_text e in ret (false, Some msg)).

(** Module initialisation, from the configuration to the startup check.  The
    arguments of a call are evaluated before it, so each [.strip()] comes
    before the call it feeds.  The DEBUG prints and the removal of the
    ambient AWS variables are left out. *)
Definition module_init (environ : environ) : M app :=
  let access_key := _env environ "WASABI_ACCESS_KEY" true None in
  let secret_key := _env environ "WASABI_SECRET_KEY" true None in
  let region := _env environ "WASABI_REGION" true None in
  let endpoint := _env environ "WASABI_ENDPOINT" true None in
  let bucket := _env environ "WASABI_BUCKET" true None in
  ak <- strip_attr access_key ;;
  sk <- strip_attr secret_key ;;
  rg <- strip_attr region ;;
  boto3 (NewSession ak sk rg) ;;;
  ep <- strip_attr endpoint ;;
  boto3 (NewClient ep) ;;;
  r <- auth_ok ;;
  ret {| WASABI_ACCESS_KEY := access_key;
         WASABI_SECRET_KEY := secret_key;
         WASABI_REGION := region;
         WASABI_ENDPOINT := endpoint;
         WASABI_BUCKET := bucket;
         s3_endpoint_host := ep;
         _auth_ok := fst r;
         _auth_err := snd r |}.

(** The configuration values module initialisation calls [.strip()] on, and
    whether a value is missing: unset, or empty once trimmed. *)
Definition stripped_names : list string :=
  ["WASABI_ACCESS_KEY"; "WASABI_SECRET_KEY"; "WASABI_REGION"; "WASABI_ENDPOINT"].

Definition missing (environ : environ) (name : string) : bool :=
  match _env environ name true None with None => true | Some _ => false end.

(** The calls of a startup that finds the four values, and the globals it
    leaves for a given result of the startup check. *)
Definition setting (environ : environ) (name : string) : string :=
  match _env environ name true None with Some v => Py.strip v | None => "" end.

Definition session_call (environ : environ) : call :=
  NewSession (setting environ "WASABI_ACCESS_KEY") (setting environ "WASABI_SECRET_KEY")
             (setting environ "WASABI_REGION").

Definition client_call (environ : environ) : call :=
  NewClient (setting environ "WASABI_ENDPOINT").

Definition startup_script (environ : environ) : list call :=
  [session_call environ; client_call environ; ListBuckets].

Definition globals (environ : environ) (ok : bool) (err : option string) : app :=
  {| WASABI_ACCESS_KEY := _env environ "WASABI_ACCESS_KEY" true None;
     WASABI_SECRET_KEY := _env environ "WASABI_SECRET_KEY" true None;
     WASABI_REGION := _env environ "WASABI_REGION" true None;
     WASABI_ENDPOINT := _env environ "WASABI_ENDPOINT" true None;
     WASABI_BUCKET := _env environ "WASABI_BUCKET" true None;
     s3_endpoint_host := setting environ "WASABI_ENDPOINT";
     _auth_ok := ok;
     _auth_err := err |}.

Section Handler.

Variable a : app.

Definition not_found_message : string :=
  "Bucket not found. Check spelling and region. " ++
  "(bucket=" ++ Py.repr_opt (WASABI_BUCKET a) ++
  ", region=" ++ Py.str_opt (WASABI_REGION a) ++
  ", endpoint=" ++ Py.str_opt (WASABI_ENDPOINT a) ++ ")".

Definition access_denied_message : string :=
  "Access denied to bucket. Keys must belong to same Wasabi account and have s3:ListBucket & s3:PutObject.".

Definition region_mismatch_message : string :=
  "Region mismatch. Set WASABI_REGION to the bucket's region and use endpoint https://s3.<region>.wasabisys.com".

Definition preflight_bucket : M (option string) :=
  try_except_ClientError
    (boto3 (HeadBucket (WASABI_BUCKET a)) ;;; ret None)
    (fun e =>
       let err := _err_text e in
       if Py.contains "NoSuchBucket" err || Py.contains "404" err then
         ret (Some not_found_message)
       else if Py.contains "AccessDenied" err || Py.contains "403" err then
         ret (Some access_denied_message)
       else if Py.contains "AuthorizationHeaderMalformed" err || Py.contains "301" err then
         ret (Some region_mismatch_message)
       else ret (Some err)).

Definition diag_put : M (option string) :=
  u <- uuid4 ;;
  let test_key := "diag/" ++ u ++ ".txt" in
  try_except_ClientError
    (boto3 (PutObject (WASABI_BUCKET a) test_key "diag" "text/plain") ;;; ret None)
    (fun e => let err := _err_text e in ret (Some err)).

Definition render_template_string (url error startup_error : option string) : page :=
  {| url := url; error := error; startup_error := startup_error;
     endpoint := s3_endpoint_host a;
     region := WASABI_REGION a;
     bucket := WASABI_BUCKET a |}.

(** [f.mimetype or "application/octet-stream"]. *)
Definition content_type (f : FileStorage) : string :=
  if String.eqb (mimetype f) "" then "application/octet-stream" else mimetype f.

Definition is_post (r : request) : bool :=
  match method r with POST => true | _ => false end.

(** [request.files.get("file")] taken as a condition. *)
Definition file_selected (r : request) : option FileStorage :=
  match files r with
  | Some f => if String.eqb (filename f) "" then None else Some f
  | None => None
  end.

Definition index (r : request) : M page :=
  if negb (_auth_ok a) then
    ret (render_template_string None None (_auth_err a))
  else if is_post r then
    pre <- preflight_bucket ;;
    if Py.truthy pre then
      ret (render_template_string None (Some ("Bucket check failed: " ++ Py.str_opt pre)) None)
    else
    d <- diag_put ;;
    if Py.truthy d then
      ret (render_template_string None (Some ("Diagnostic PutObject failed: " ++ Py.str_opt d)) None)
    else
    match file_selected r with
    | None => ret (render_template_string None (Some "No file selected.") None)
    | Some f =>
        let fname := secure_filename (filename f) in
        if String.eqb fname "" then
          ret (render_template_string None (Some "Invalid filename.") None)
        else
          u <- uuid4 ;;
          let key := "uploads/" ++ u ++ "_" ++ fname in
          try_except_ClientError
            (let data := stream f in
             boto3 (PutObject (WASABI_BUCKET a) key data (content_type f)) ;;;
             url <- boto3 (PresignGetObject (WASABI_BUCKET a) key 3600) ;;
             ret (render_template_string (Some url) None None))
            (fun e => ret (render_template_string None (Some (_err_text e)) None))
    end
  else
    ret (render_template_string None None None).

(** *** The branches of the handler in [preflight_bucket]

    [classify] names the branch the [except] block takes for an error text,
    by the code's own substring tests in the code's order, and [guidance] is
    the value that branch returns. *)

Inductive head_failure := NotFound | PermissionDenied | RegionMismatch | Unclassified.

Definition classify (err : string) : head_failure :=
  if Py.contains "NoSuchBucket" err || Py.contains "404" err then NotFound
  else if Py.contains "AccessDenied" err || Py.contains "403" err then PermissionDenied
  else if Py.contains "AuthorizationHeaderMalformed" err || Py.contains "301" err
       then RegionMismatch
  else Unclassified.

Definition guidance (c : head_failure) (err : string) : string :=
  match c with
  | NotFound => not_found_message
  | PermissionDenied => access_denied_message
  | RegionMismatch => region_mismatch_message
  | Unclassified => err
  end.

(** *** The request script of the specification

    The upload sequence as the specification words it: bucket check, then
    diagnostic put, then real put, then presign, each step run only when the
    one before it succeeded.  [upload_script] lists the calls a POST plans,
    [run_script] the ones that are made. *)

Definition diag_call (w : world) : call :=
  PutObject (WASABI_BUCKET a) ("diag/" ++ uuid_source (draws w) ++ ".txt") "diag" "text/plain".

Definition upload_key (w : world) (fname : string) : string :=
  "uploads/" ++ uuid_source (S (draws w)) ++ "_" ++ fname.

Definition upload_call (w : world) (f : FileStorage) : call :=
  PutObject (WASABI_BUCKET a) (upload_key w (secure_filename (filename f)))
            (stream f) (content_type f).

Definition presign_call (w : world) (f : FileStorage) : call :=
  PresignGetObject (WASABI_BUCKET a) (upload_key w (secure_filename (filename f))) 3600.

(** The local message of input validation, if validation fails. *)
Definition validation_error (r : request) : option string :=
  match file_selected r with
  | None => Some "No file selected."
  | Some f => if String.eqb (secure_filename (filename f)) "" then Some "Invalid filename."
              else None
  end.

Definition upload_script (r : request) (w : world) : list call :=
  HeadBucket (WASABI_BUCKET a) :: diag_call w ::
  match file_selected r with
  | None => []
  | Some f => if String.eqb (secure_filename (filename f)) "" then []
              else [upload_call w f; presign_call w f]
  end.

Fixpoint run_script (h : list call) (cs : list call) : list call :=
  match cs with
  | [] => []
  | c :: rest => c :: (if succeeded (s3 h c) then run_script (h ++ [c])%list rest else [])
  end.

(** The exception of the first call of [cs] that fails, when the calls are
    made in this order after the calls [h]. *)
Fixpoint first_failure (h : list call) (cs : list call) : option exn :=
  match cs with
  | [] => None
  | c :: rest => match s3 h c with
                 | Raises e => Some e
                 | Returns _ => first_failure (h ++ [c])%list rest
                 end
  end.

End Handler.
End Program.

(** ** Concrete parameters, for running the program *)

Module Sample.

(** [str.split()] with no argument. *)
Fixpoint split_ws (cur s : string) : list string :=
  match s with
  | EmptyString => if String.eqb cur "" then [] else [cur]
  | String c rest =>
      if Py.isspace c then
        (if String.eqb cur "" then split_ws "" rest else cur :: split_ws "" rest)
      else split_ws (cur ++ String c "") rest
  end.

Fixpoint map_chars (f : ascii -> ascii) (s : string) : string :=
  match s with
  | EmptyString => EmptyString
  | String c rest => String (f c) (map_chars f rest)
  end.

Fixpoint filter_chars (p : ascii -> bool) (s : string) : string :=
  match s with
  | EmptyString => EmptyString
  | String c rest => if p c then String c (filter_chars p rest) else filter_chars p rest
  end.

(** The characters the pattern [[^A-Za-z0-9_.-]] keeps. *)
Definition filename_char (c : ascii) : bool :=
  let n := nat_of_ascii c in
  (((65 <=? n) && (n <=? 90)) || ((97 <=? n) && (n <=? 122))
   || ((48 <=? n) && (n <=? 57)) || (n =? 95) || (n =? 46) || (n =? 45))%nat.

(** werkzeug's [secure_filename] on a POSIX host ([os.sep] is the slash, no
    [altsep], no device names), for file names made of ASCII characters, on
    which the NFKD normalisation and the ASCII re-encoding change nothing. *)
Definition secure_filename_ascii (filename : string) : string :=
  let filename := map_chars (fun c => if Ascii.eqb c "/" then " "%char else c) filename in
  Py.strip_chars "._" (filter_chars filename_char (String.concat "_" (split_ws "" filename))).

(** A store that accepts every call; presigning returns a URL built from the
    key. *)
Definition store_ok (h : list call) (c : call) : outcome :=
  match c with
  | PresignGetObject _ k _ => Returns ("https://s3.example.test/" ++ k ++ "?X-Amz-Expires=3600")
  | _ => Returns ""
  end.

(** A store that answers the calls selected by [p] with the exception [e] and
    accepts the others. *)
Definition store_failing (p : call -> bool) (e : exn) (h : list call) (c : call) : outcome :=
  if p c then Raises e else store_ok h c.

Definition is_head_bucket (c : call) : bool :=
  match c with HeadBucket _ => true | _ => false end.

Definition no_such_bucket : client_error :=
  {| response_Error := Some {| Code := Some "NoSuchBucket";
                               Message := Some "The specified bucket does not exist" |} |}.

Definition invalid_access_key : client_error :=
  {| response_Error := Some {| Code := Some "InvalidAccessKeyId";
                               Message := Some "The access key does not exist" |} |}.

(** A permission error whose message happens to hold the digits 404. *)
Definition denied_with_404 : client_error :=
  {| response_Error := Some {| Code := Some "AccessDenied";
                               Message := Some "Access Denied (request 4e404b12)" |} |}.


Definition uuids (n : nat) : string :=
  nth n ["5b2c1f0e-7a44-4d53-9c1e-0f6a3b9d2e71";
         "e3a9d7c4-12b8-4f60-8a3d-5c7e9b1f2a06";
         "0d4f8b6a-93c1-4e27-b5a8-6e2c1d7f4b39";
         "a71e5c92-4b3f-4a08-9d6c-2f8b0e3a1c54"] "c6d08e1b-5f27-49a3-8b4e-9a1d3c7f0e62".

Definition environ_full : environ := fun name =>
  if String.eqb name "WASABI_ACCESS_KEY" then Some "AKIDEXAMPLE0001"
  else if String.eqb name "WASABI_SECRET_KEY" then Some "s3cr3tEXAMPLEs3cr3t"
  else if String.eqb name "WASABI_REGION" then Some " us-east-1 "
  else if String.eqb name "WASABI_ENDPOINT" then Some "https://s3.us-east-1.wasabisys.com"
  else if String.eqb name "WASABI_BUCKET" then Some "my-bucket"
  else None.

(** The same environment with one variable removed. *)
Definition without (name : string) (env : environ) : environ :=
  fun n => if String.eqb n name then None else env n.

Definition world0 : world := {| log := []; draws := 0 |}.

(** The globals of a started process whose startup check passed. *)
Definition app_ok : app :=
  {| WASABI_ACCESS_KEY := Some "AKIDEXAMPLE0001";
     WASABI_SECRET_KEY := Some "s3cr3tEXAMPLEs3cr3t";
     WASABI_REGION := Some "us-east-1";
     WASABI_ENDPOINT := Some "https://s3.us-east-1.wasabisys.com";
     WASABI_BUCKET := Some "my-bucket";
     s3_endpoint_host := "https://s3.us-east-1.wasabisys.com";
     _auth_ok := true;
     _auth_err := None |}.

Definition photo : FileStorage :=
  {| filename := "../../holiday photo.png"; stream := "PNGDATA"; mimetype := "image/png" |}.

Definition post_photo : request := {| method := POST; files := Some photo |}.
Definition post_nothing : request := {| method := POST; files := None |}.
Definition post_unnamed : request :=
  {| method := POST; files := Some {| filename := ""; stream := ""; mimetype := "" |} |}.
Definition post_dots : request :=
  {| method := POST; files := Some {| filename := "../.."; stream := "x"; mimetype := "text/plain" |} |}.
Definition get_page : request := {| method := GET; files := None |}.

End Sample.


(** ** Properties *)

Section Strings.

Lemma prefix_app (n y : string) : String.prefix n (n ++ y) = true.
Proof.
  induction n as [|c n IH]; simpl.
  - destruct y; reflexivity.
  - destruct (ascii_dec c c) as [_|ne]; [exact IH | contradiction].
Qed.

Lemma contains_prefix (n h : string) : String.prefix n h = true -> Py.contains n h = true.
Proof. destruct h; simpl; intros ->; reflexivity. Qed.

Lemma contains_app (x n y : string) : Py.contains n (x ++ n ++ y) = true.
Proof.
  induction x as [|c x IH].
  - change ("" ++ n ++ y) with (n ++ y). apply contains_prefix, prefix_app.
  - simpl. rewrite IH. apply orb_true_r.
Qed.

Lemma contains_skip (x n h : string) :
  Py.contains n h = true -> Py.contains n (x ++ h) = true.
Proof.
  intros H. induction x as [|c x IH]; [exact H|].
  simpl. rewrite IH. apply orb_true_r.
Qed.

Lemma append_assoc (x y z : string) : (x ++ y) ++ z = x ++ y ++ z.
Proof. induction x; simpl; congruence. Qed.

Lemma append_inv_head (x y z : string) : x ++ y = x ++ z -> y = z.
Proof. induction x; simpl; intros H; [exact H | injection H; auto]. Qed.

Lemma length_append (x y : string) : String.length (x ++ y) = String.length x + String.length y.
Proof. induction x; simpl; congruence. Qed.

Lemma append_inv_tail (x y z : string) : x ++ z = y ++ z -> x = y.
Proof.
  revert y. induction x as [|c x IH]; intros [|d y] H; simpl in *.
  - reflexivity.
  - apply (f_equal String.length) in H. simpl in H. rewrite length_append in H. lia.
  - apply (f_equal String.length) in H. simpl in H. rewrite length_append in H. lia.
  - injection H as -> H. f_equal. auto.
Qed.

(** [repr] leaves a character as it is when it is printable and is neither
    the backslash nor the quote in use. *)
Definition repr_keeps (q c : ascii) : bool :=
  Py.isprintable c && negb (Ascii.eqb c q) && negb (Ascii.eqb c Py.backslash).

Lemma repr_char_keeps (q c : ascii) :
  repr_keeps q c = true -> Py.repr_char q c = String c EmptyString.
Proof.
  unfold repr_keeps, Py.repr_char. intros H.
  apply andb_true_iff in H as [H Hb]. apply andb_true_iff in H as [Hp Hq].
  apply negb_true_iff in Hb, Hq. rewrite Hq, Hb. simpl.
  rewrite Hp. unfold Py.isprintable in Hp.
  destruct (nat_of_ascii c =? 9)%nat eqn:E9.
  { apply Nat.eqb_eq in E9. rewrite E9 in Hp. discriminate. }
  destruct (nat_of_ascii c =? 10)%nat eqn:E10.
  { apply Nat.eqb_eq in E10. rewrite E10 in Hp. discriminate. }
  destruct (nat_of_ascii c =? 13)%nat eqn:E13.
  { apply Nat.eqb_eq in E13. rewrite E13 in Hp. discriminate. }
  reflexivity.
Qed.

Lemma repr_body_keeps (q : ascii) (s : string) :
  Py.all_chars (repr_keeps q) s = true -> Py.repr_body q s = s.
Proof.
  induction s as [|c s IH]; simpl; intros H; [reflexivity|].
  apply andb_true_iff in H as [Hc Hs].
  rewrite (repr_char_keeps _ _ Hc), (IH Hs). reflexivity.
Qed.

(** The names without a single quote, a backslash or an unprintable
    character: [repr] writes them as they are, between single quotes. *)
Definition unescaped (s : string) : bool := Py.all_chars (repr_keeps Py.squote) s.

Lemma unescaped_no_squote (s : string) :
  unescaped s = true -> Py.has_char Py.squote s = false.
Proof.
  unfold unescaped. induction s as [|c s IH]; [reflexivity|].
  cbn [Py.all_chars Py.has_char]. intros H. apply andb_true_iff in H as [Hc Hs].
  rewrite (IH Hs), orb_false_r. unfold repr_keeps in Hc.
  apply andb_true_iff in Hc as [Hc _]. apply andb_true_iff in Hc as [_ Hq].
  apply negb_true_iff in Hq. rewrite Ascii.eqb_sym. exact Hq.
Qed.

Lemma repr_unescaped (s : string) :
  unescaped s = true -> Py.repr s = String Py.squote (s ++ String Py.squote "").
Proof.
  intros H. unfold Py.repr, Py.repr_quote.
  rewrite (unescaped_no_squote s H). cbn [andb].
  rewrite (repr_body_keeps _ _ H). reflexivity.
Qed.

Lemma carries_err_text (e : client_error) (code msg : option string) :
  carries e code msg -> _err_text e = Py.str_opt code ++ ": " ++ Py.str_opt msg.
Proof.
  unfold _err_text. intros [-> | (-> & -> & ->)]; reflexivity.
Qed.

(** The names [repr] writes verbatim between its quotes. *)
Definition repr_verbatim (s : string) : bool :=
  Py.all_chars (repr_keeps (Py.repr_quote s)) s.

Lemma repr_contains (s : string) :
  repr_verbatim s = true -> forall x y, Py.contains s (x ++ Py.repr s ++ y) = true.
Proof.
  unfold repr_verbatim, Py.repr. intros H x y.
  rewrite (repr_body_keeps _ _ H).
  change (String (Py.repr_quote s) (s ++ String (Py.repr_quote s) ""))
    with (String (Py.repr_quote s) "" ++ s ++ String (Py.repr_quote s) "").
  rewrite !append_assoc. rewrite <- (append_assoc x).
  apply contains_app.
Qed.

(** The names made of letters, digits, dots, hyphens and underscores, the
    only bucket names boto3 sends to a store, are written verbatim. *)
Lemma name_char_kept (q c : ascii) :
  q = Py.squote \/ q = Py.dquote ->
  Sample.filename_char c = true -> repr_keeps q c = true.
Proof.
  intros [-> | ->];
    destruct c as [[] [] [] [] [] [] [] []]; intros H; vm_compute in H |- *;
    solve [reflexivity | discriminate].
Qed.

Lemma plain_name_verbatim (s : string) :
  Py.all_chars Sample.filename_char s = true -> repr_verbatim s = true.
Proof.
  unfold repr_verbatim.
  assert (Hq : Py.repr_quote s = Py.squote \/ Py.repr_quote s = Py.dquote)
    by (unfold Py.repr_quote; destruct (_ && _); auto).
  revert Hq. generalize (Py.repr_quote s) as q. intros q Hq.
  induction s as [|c s IH]; [reflexivity|]. cbn [Py.all_chars].
  intros H. apply andb_true_iff in H as [Hc Hs].
  rewrite (name_char_kept q c Hq Hc), (IH Hs). reflexivity.
Qed.

Lemma plain_name_unescaped (s : string) :
  Py.all_chars Sample.filename_char s = true -> unescaped s = true.
Proof.
  unfold unescaped. induction s as [|c s IH]; [reflexivity|]. cbn [Py.all_chars].
  intros H. apply andb_true_iff in H as [Hc Hs].
  rewrite (name_char_kept Py.squote c (or_introl eq_refl) Hc), (IH Hs). reflexivity.
Qed.

Lemma _err_text_truthy (e : client_error) : Py.truthy (Some (_err_text e)) = true.
Proof.
  unfold _err_text.
  destruct (Py.str_opt (Code _)) as [|c s]; simpl; reflexivity.
Qed.

End Strings.

Section Steps.

Variable s3 : list call -> call -> outcome.
Variable uuid_source : nat -> string.
Variable secure_filename : string -> string.
Variable a : app.

Lemma guidance_truthy (e : client_error) :
  Py.truthy (Some (guidance a (classify (_err_text e)) (_err_text e))) = true.
Proof.
  destruct (classify (_err_text e)); try reflexivity.
  apply _err_text_truthy.
Qed.

(** One run of the bucket check: one [head_bucket] call, whose answer decides
    the result. *)
Lemma preflight_bucket_run (w : world) :
  preflight_bucket s3 a w =
  (match s3 (log w) (HeadBucket (WASABI_BUCKET a)) with
   | Returns _ => Ret None
   | Raises (ClientError e) =>
       Ret (Some (guidance a (classify (_err_text e)) (_err_text e)))
   | Raises e => Raise e
   end, record_call (HeadBucket (WASABI_BUCKET a)) w).
Proof.
  unfold preflight_bucket, try_except_ClientError, bind, boto3, ret.
  destruct (s3 (log w) (HeadBucket (WASABI_BUCKET a))) as [v|[e|m|c]]; try reflexivity.
  unfold classify, guidance.
  destruct (Py.contains "NoSuchBucket" (_err_text e) || Py.contains "404" (_err_text e));
    [reflexivity|].
  destruct (Py.contains "AccessDenied" (_err_text e) || Py.contains "403" (_err_text e));
    [reflexivity|].
  destruct (Py.contains "AuthorizationHeaderMalformed" (_err_text e)
            || Py.contains "301" (_err_text e)); reflexivity.
Qed.

(** One run of the diagnostic put: one UUID drawn, one [put_object] call. *)
Lemma diag_put_run (w : world) :
  diag_put s3 uuid_source a w =
  (match s3 (log w) (diag_call uuid_source a w) with
   | Returns _ => Ret None
   | Raises (ClientError e) => Ret (Some (_err_text e))
   | Raises e => Raise e
   end, {| log := (log w ++ [diag_call uuid_source a w])%list; draws := S (draws w) |}).
Proof.
  unfold diag_put, diag_call, try_except_ClientError, bind, boto3,
    uuid4, ret, record_call; simpl.
  destruct (s3 (log w) _) as [v|[e|m|c]]; reflexivity.
Qed.

(** The handler on a POST once the startup check has passed, step by step. *)
Lemma index_post_run (r : request) (w : world) :
  _auth_ok a = true -> is_post r = true ->
  index s3 uuid_source secure_filename a r w =
  let head := HeadBucket (WASABI_BUCKET a) in
  let diag := diag_call uuid_source a w in
  let w1 := record_call head w in
  let w2 := {| log := (log w ++ [head; diag])%list; draws := S (draws w) |} in
  match s3 (log w) head with
  | Raises (ClientError e) =>
      (Ret (render_template_string a None
              (Some ("Bucket check failed: " ++ guidance a (classify (_err_text e)) (_err_text e)))
              None), w1)
  | Raises e => (Raise e, w1)
  | Returns _ =>
    match s3 (log w1) diag with
    | Raises (ClientError e) =>
        (Ret (render_template_string a None
                (Some ("Diagnostic PutObject failed: " ++ _err_text e)) None), w2)
    | Raises e => (Raise e, w2)
    | Returns _ =>
      match validation_error secure_filename r, file_selected r with
      | Some msg, _ => (Ret (render_template_string a None (Some msg) None), w2)
      | None, None => (Ret (render_template_string a None (Some "No file selected.") None), w2)
      | None, Some f =>
        let put := upload_call uuid_source secure_filename a w f in
        let presign := presign_call uuid_source secure_filename a w f in
        let w3 := {| log := (log w ++ [head; diag; put])%list; draws := S (S (draws w)) |} in
        let w4 := {| log := (log w ++ [head; diag; put; presign])%list;
                     draws := S (S (draws w)) |} in
        match s3 (log w2) put with
        | Raises (ClientError e) =>
            (Ret (render_template_string a None (Some (_err_text e)) None), w3)
        | Raises e => (Raise e, w3)
        | Returns _ =>
          match s3 (log w3) presign with
          | Returns u => (Ret (render_template_string a (Some u) None None), w4)
          | Raises (ClientError e) =>
              (Ret (render_template_string a None (Some (_err_text e)) None), w4)
          | Raises e => (Raise e, w4)
          end
        end
      end
    end
  end.
Proof.
  intros Hauth Hpost. destruct w as [l n].
  unfold index. rewrite Hauth, Hpost. cbn [negb].
  unfold bind at 1. rewrite preflight_bucket_run. cbv zeta.
  unfold record_call, diag_call, upload_call, presign_call, upload_key; cbn [log draws].
  destruct (s3 l (HeadBucket (WASABI_BUCKET a))) as [v|[e|m|c]]; try reflexivity.
  2:{ rewrite guidance_truthy. reflexivity. }
  cbn [Py.truthy]. unfold bind at 1. rewrite diag_put_run.
  unfold diag_call; cbn [log draws]. rewrite <- !app_assoc; cbn [List.app].
  destruct (s3 (l ++ [HeadBucket (WASABI_BUCKET a)])%list _) as [v'|[e|m|c]];
    try reflexivity.
  2:{ rewrite _err_text_truthy. reflexivity. }
  cbn [Py.truthy]. unfold validation_error.
  destruct (file_selected r) as [f|]; [|reflexivity].
  destruct (secure_filename (filename f) =? ""); [reflexivity|].
  unfold bind, uuid4, try_except_ClientError, boto3, ret, record_call; cbn [log draws].
  rewrite <- !app_assoc; cbn [List.app].
  destruct (s3 (l ++ [_; _])%list _) as [v''|[e|m|c]]; try reflexivity.
  destruct (s3 (l ++ [_; _; _])%list _) as [u|[e|m|c]]; reflexivity.
Qed.

Lemma index_startup_error (r : request) (w : world) :
  _auth_ok a = false ->
  index s3 uuid_source secure_filename a r w =
  (Ret (render_template_string a None None (_auth_err a)), w).
Proof. intros H. unfold index. rewrite H. reflexivity. Qed.

Lemma index_not_post (r : request) (w : world) :
  _auth_ok a = true -> is_post r = false ->
  index s3 uuid_source secure_filename a r w =
  (Ret (render_template_string a None None None), w).
Proof. intros H H'. unfold index. rewrite H, H'. reflexivity. Qed.

End Steps.

Section Startup.

Variable s3 : list call -> call -> outcome.
Variable env : environ.

(** A missing access key, secret key, region or endpoint stops module
    initialisation before any call reaches the store. *)
Lemma module_init_missing (w : world) :
  existsb (missing env) stripped_names = true ->
  exists e cs,
    module_init s3 env w = (Raise e, {| log := (log w ++ cs)%list; draws := draws w |})
    /\ existsb is_store_call cs = false
    /\ (e = AttributeError "'NoneType' object has no attribute 'strip'"
        \/ s3 (log w) (session_call env) = Raises e).
Proof.
  unfold stripped_names, missing, module_init, session_call, setting. cbn [existsb].
  destruct w as [l n]. cbn [log draws].
  destruct (_env env "WASABI_ACCESS_KEY" true None) as [ak|].
  2:{ intros _. eexists; exists []. rewrite app_nil_r. repeat split. now left. }
  destruct (_env env "WASABI_SECRET_KEY" true None) as [sk|].
  2:{ intros _. eexists; exists []. rewrite app_nil_r. repeat split. now left. }
  destruct (_env env "WASABI_REGION" true None) as [rg|].
  2:{ intros _. eexists; exists []. rewrite app_nil_r. repeat split. now left. }
  destruct (_env env "WASABI_ENDPOINT" true None) as [ep|]; [discriminate|].
  intros _. unfold bind, strip_attr, ret, raise, boto3, record_call. cbn [log draws].
  destruct (s3 l _) as [v|e]; eexists; eexists [_]; repeat split; auto.
Qed.

(** With the four values present, module initialisation makes the calls of
    [startup_script] in order and stops at the first that raises; only a
    [ClientError] of the startup check is kept, as the cached result. *)
Lemma module_init_run (w : world) :
  existsb (missing env) stripped_names = false ->
  module_init s3 env w =
  let session := session_call env in
  let client := client_call env in
  let after cs := {| log := (log w ++ cs)%list; draws := draws w |} in
  match s3 (log w) session with
  | Raises e => (Raise e, after [session])
  | Returns _ =>
    match s3 (log w ++ [session])%list client with
    | Raises e => (Raise e, after [session; client])
    | Returns _ =>
      match s3 (log w ++ [session; client])%list ListBuckets with
      | Returns _ => (Ret (globals env true None), after (startup_script env))
      | Raises (ClientError e) =>
          (Ret (globals env false (Some (_err_text e))), after (startup_script env))
      | Raises e => (Raise e, after (startup_script env))
      end
    end
  end.
Proof.
  unfold stripped_names, missing, module_init, startup_script, globals, session_call,
    client_call, setting. cbn [existsb].
  destruct w as [l n]. cbn [log draws].
  destruct (_env env "WASABI_ACCESS_KEY" true None) as [ak|]; [|discriminate].
  destruct (_env env "WASABI_SECRET_KEY" true None) as [sk|]; [|discriminate].
  destruct (_env env "WASABI_REGION" true None) as [rg|]; [|discriminate].
  destruct (_env env "WASABI_ENDPOINT" true None) as [ep|]; [|discriminate].
  intros _. cbv zeta.
  unfold auth_ok, try_except_ClientError, bind, strip_attr, ret, raise, boto3, record_call.
  cbn [log draws].
  destruct (s3 l _) as [v|e]; [|reflexivity].
  destruct (s3 (l ++ [_])%list (NewClient _)) as [v'|e];
    rewrite <- ?app_assoc; cbn [List.app]; [|reflexivity].
  destruct (s3 (l ++ [_; _])%list ListBuckets) as [v''|[e|m|c]]; reflexivity.
Qed.

End Startup.

Section Calls.

Variable s3 : list call -> call -> outcome.
Variable uuid_source : nat -> string.
Variable secure_filename : string -> string.
Variable a : app.

Lemma run_script_existsb (p : call -> bool) (cs : list call) :
  forall h, existsb p cs = false -> existsb p (run_script s3 h cs) = false.
Proof.
  induction cs as [|c cs IH]; intros h H; [reflexivity|].
  cbn [existsb run_script] in *. apply orb_false_iff in H as [Hc Hcs].
  rewrite Hc. destruct (succeeded (s3 h c)); [apply IH, Hcs | reflexivity].
Qed.

(** The calls one request adds to the log, and the UUIDs it draws. *)
Lemma index_log (r : request) (w : world) :
  log (snd (index s3 uuid_source secure_filename a r w)) =
  (log w ++ (if _auth_ok a && is_post r
             then run_script s3 (log w) (upload_script uuid_source secure_filename a r w)
             else []))%list.
Proof.
  destruct (_auth_ok a) eqn:Hauth.
  2:{ rewrite index_startup_error by assumption. cbn. now rewrite app_nil_r. }
  destruct (is_post r) eqn:Hpost.
  2:{ rewrite index_not_post by assumption. cbn. now rewrite app_nil_r. }
  rewrite index_post_run by assumption. cbv zeta. cbn [andb].
  unfold upload_script, validation_error, record_call.
  cbn [run_script log].
  destruct (s3 (log w) (HeadBucket (WASABI_BUCKET a))) as [v|[e|m|c]]; try reflexivity.
  cbn [succeeded].
  destruct (s3 (log w ++ [_])%list (diag_call uuid_source a w)) as [v'|[e|m|c]];
    try reflexivity.
  cbn [succeeded].
  destruct (file_selected r) as [f|]; [|reflexivity].
  destruct (secure_filename (filename f) =? ""); [reflexivity|].
  cbn [run_script]. rewrite <- !app_assoc. cbn [List.app].
  destruct (s3 (log w ++ [_; _])%list (upload_call _ _ a w f)) as [v''|[e|m|c]];
    try reflexivity.
  cbn [succeeded].
  destruct (s3 (log w ++ [_; _; _])%list (presign_call _ _ a w f)) as [u|[e|m|c]];
    reflexivity.
Qed.

Lemma upload_script_no_list_buckets (r : request) (w : world) :
  existsb is_list_buckets (upload_script uuid_source secure_filename a r w) = false.
Proof.
  unfold upload_script. destruct (file_selected r) as [f|]; [|reflexivity].
  destruct (secure_filename (filename f) =? ""); reflexivity.
Qed.

(** Once the startup check has passed no page carries a startup error. *)
Lemma index_no_startup_error (r : request) (w : world) (p : page) :
  _auth_ok a = true ->
  fst (index s3 uuid_source secure_filename a r w) = Ret p -> startup_error p = None.
Proof.
  intros Hauth. destruct (is_post r) eqn:Hpost.
  2:{ rewrite index_not_post by assumption. intros H; inversion H; reflexivity. }
  rewrite index_post_run by assumption. cbv zeta.
  destruct (s3 (log w) (HeadBucket (WASABI_BUCKET a))) as [v|[e|m|c]];
    try (intros H; inversion H; reflexivity).
  destruct (s3 _ (diag_call uuid_source a w)) as [v'|[e|m|c]];
    try (intros H; inversion H; reflexivity).
  destruct (validation_error secure_filename r);
    try (intros H; inversion H; reflexivity).
  destruct (file_selected r) as [f|]; try (intros H; inversion H; reflexivity).
  destruct (s3 _ (upload_call _ _ a w f)) as [v''|[e|m|c]];
    try (intros H; inversion H; reflexivity).
  destruct (s3 _ (presign_call _ _ a w f)) as [u|[e|m|c]];
    intros H; inversion H; reflexivity.
Qed.

End Calls.

(** ** The claims *)

(** Substring tests on a text that begins with a literal code: the test is
    decided inside the code, or passes on to the message. *)
Ltac through_code :=
  repeat match goal with
  | |- context [Py.contains ?n (?lit ++ ": " ++ ?m)] =>
      first [ replace (Py.contains n (lit ++ ": " ++ m)) with true
                by (cbn; reflexivity)
            | replace (Py.contains n (lit ++ ": " ++ m)) with (Py.contains n m)
                by (cbn; reflexivity) ]
  end.


Section Claims.

Variable s3 : list call -> call -> outcome.
Variable uuid_source : nat -> string.
Variable secure_filename : string -> string.

(** C7.  The startup check is made once, by module initialisation: the calls
    of a startup that returns are those of [startup_script], with a single
    [list_buckets], and no request ever repeats it.  The result is kept in the
    globals; when it is false, the stored message is a non-empty string, and
    every request, GET or POST, is answered with the page showing it as the
    startup error, with no URL, no error, and the world left as it was: no
    call to the store, no UUID drawn. *)
Theorem startup_check_once_and_cached (env : environ) (w : world) (a : app) (w1 : world) :
  module_init s3 env w = (Ret a, w1) ->
  log w1 = (log w ++ startup_script env)%list
  /\ length (filter is_list_buckets (startup_script env)) = 1
  /\ (forall r w2, exists cs,
        log (snd (index s3 uuid_source secure_filename a r w2)) = (log w2 ++ cs)%list
        /\ existsb is_list_buckets cs = false)
  /\ (_auth_ok a = false ->
      Py.truthy (_auth_err a) = true
      /\ forall r w2,
           index s3 uuid_source secure_filename a r w2 =
           (Ret {| url := None; error := None; startup_error := _auth_err a;
                   endpoint := s3_endpoint_host a; region := WASABI_REGION a;
                   bucket := WASABI_BUCKET a |}, w2)).
Proof.
  intros Hinit.
  assert (Hpresent : existsb (missing env) stripped_names = false).
  { destruct (existsb (missing env) stripped_names) eqn:E; [|reflexivity].
    destruct (module_init_missing s3 env w E) as (e & cs & Hr & _).
    rewrite Hr in Hinit. discriminate. }
  rewrite (module_init_run s3 env w Hpresent) in Hinit. cbv zeta in Hinit.
  split; [|split; [reflexivity|split]].
  - destruct (s3 (log w) (session_call env)); [|discriminate].
    destruct (s3 (log w ++ [_])%list (client_call env)); [|discriminate].
    destruct (s3 (log w ++ [_; _])%list ListBuckets) as [v|[e|m|c]];
      inversion Hinit; reflexivity.
  - intros r w2. eexists. split; [apply index_log|].
    destruct (_auth_ok a && is_post r); [|reflexivity].
    apply run_script_existsb, upload_script_no_list_buckets.
  - intros Hfalse. split.
    + destruct (s3 (log w) (session_call env)); [|discriminate].
      destruct (s3 (log w ++ [_])%list (client_call env)); [|discriminate].
      destruct (s3 (log w ++ [_; _])%list ListBuckets) as [v|[e|m|c]];
        inversion Hinit; subst a; cbn in *; try discriminate.
      apply _err_text_truthy.
    + intros r w2. now rewrite index_startup_error.
Qed.

(** C8.  On every POST handled after a passed startup check, whatever calls
    were made before, the calls the request adds to the log are those of the
    upload script (bucket check, diagnostic put, real put, presign) made in
    that order up to and including the first one that fails: the bucket check
    is always made anew, and no step follows a failed one. *)
Theorem upload_steps_in_order (a : app) (r : request) (w : world) :
  _auth_ok a = true -> is_post r = true ->
  log (snd (index s3 uuid_source secure_filename a r w)) =
    (log w ++ run_script s3 (log w) (upload_script uuid_source secure_filename a r w))%list
  /\ exists rest,
       run_script s3 (log w) (upload_script uuid_source secure_filename a r w) =
       HeadBucket (WASABI_BUCKET a) :: rest.
Proof.
  intros Hauth Hpost. split.
  - rewrite index_log, Hauth, Hpost. reflexivity.
  - unfold upload_script. cbn [run_script]. eexists. reflexivity.
Qed.

(** C9, as the code has it.  The diagnostic put draws one fresh UUID and
    asks the store for one [put_object] of the four bytes [diag], of type
    [text/plain], under the key [diag/<uuid>.txt]; a key under [diag/] is
    never under [uploads/], and an upload key is never under [diag/].  When
    the store accepts, the result is [None] and nothing but the call and the
    draw is left behind: the key is not returned and no later call removes
    the object.  When the put raises a [ClientError], the result is the text
    [<code>: <message>] of the code and message the error carries, [None]
    written for a missing one.  When the put raises an exception of any other
    class, nothing is returned: the exception leaves [diag_put]. *)
Theorem diag_put_contract (a : app) (w : world) :
  let key := "diag/" ++ uuid_source (draws w) ++ ".txt" in
  let c := PutObject (WASABI_BUCKET a) key "diag" "text/plain" in
  snd (diag_put s3 uuid_source a w) =
    {| log := (log w ++ [c])%list; draws := S (draws w) |}
  /\ String.prefix "diag/" key = true
  /\ (forall k, String.prefix "diag/" k = true -> String.prefix "uploads/" k = false)
  /\ (forall u n, String.prefix "diag/" ("uploads/" ++ u ++ "_" ++ n) = false)
  /\ match s3 (log w) c with
     | Returns _ => fst (diag_put s3 uuid_source a w) = Ret None
     | Raises (ClientError e) =>
         forall code msg, carries e code msg ->
           fst (diag_put s3 uuid_source a w) =
           Ret (Some (Py.str_opt code ++ ": " ++ Py.str_opt msg))
     | Raises e => fst (diag_put s3 uuid_source a w) = Raise e
     end.
Proof.
  cbv zeta. rewrite diag_put_run. unfold diag_call. cbn [fst snd].
  split; [reflexivity|]. split; [apply prefix_app|]. split; [|split].
  - intros [|ch k]; [discriminate|]. cbn [String.prefix].
    destruct (ascii_dec "d" ch) as [<-|]; [|discriminate].
    intros _. destruct (ascii_dec "u" "d"); [discriminate | reflexivity].
  - intros u n. cbn [String.append String.prefix].
    destruct (ascii_dec "d" "u"); [discriminate | reflexivity].
  - destruct (s3 (log w) _) as [v|[e|m|c]]; try reflexivity.
    intros code msg H. rewrite (carries_err_text e code msg H). reflexivity.
Qed.

(** C4.  When a POST reaches the real upload (startup check passed, bucket
    check and diagnostic put accepted, a file selected whose sanitized name
    [n] is not empty), the object is put under exactly
    [uploads/<uuid>_<n>], where the UUID is a draw made during this request
    and never used before it; it is the only put of the request under
    [uploads/], nothing is asked of the store between the diagnostic put and
    this put, and two uploads of the same name get the same key only if they
    drew the same UUID. *)
Theorem upload_key_shape (a : app) (r : request) (w : world) (f : FileStorage) (n : string) :
  _auth_ok a = true -> is_post r = true ->
  file_selected r = Some f -> secure_filename (filename f) = n -> n <> "" ->
  first_failure s3 (log w)
    [HeadBucket (WASABI_BUCKET a); diag_call uuid_source a w] = None ->
  let w' := snd (index s3 uuid_source secure_filename a r w) in
  let i := S (draws w) in
  let key := "uploads/" ++ uuid_source i ++ "_" ++ n in
  exists rest,
    log w' = (log w ++ HeadBucket (WASABI_BUCKET a) :: diag_call uuid_source a w ::
                       PutObject (WASABI_BUCKET a) key (stream f) (content_type f) :: rest)%list
    /\ existsb is_put rest = false
    /\ draws w <= i < draws w'
    /\ (forall u, "uploads/" ++ u ++ "_" ++ n = key -> u = uuid_source i).
Proof.
  intros Hauth Hpost Hf Hn Hne Hok. cbv zeta.
  assert (Hnb : (secure_filename (filename f) =? "") = false)
    by (rewrite Hn; apply String.eqb_neq, Hne).
  cbn [first_failure] in Hok.
  rewrite index_post_run by assumption. cbv zeta.
  unfold validation_error, record_call. cbn [log]. rewrite Hf, Hnb.
  destruct (s3 (log w) (HeadBucket (WASABI_BUCKET a))) as [v|]; [|discriminate].
  destruct (s3 (log w ++ [_])%list (diag_call uuid_source a w)) as [v'|]; [|discriminate].
  unfold upload_call, presign_call, upload_key. rewrite Hn.
  assert (Hinj : forall u, "uploads/" ++ u ++ "_" ++ n =
                           "uploads/" ++ uuid_source (S (draws w)) ++ "_" ++ n ->
                           u = uuid_source (S (draws w))).
  { intros u H. apply append_inv_head in H. rewrite <- !append_assoc in H.
    do 2 apply append_inv_tail in H. exact H. }
  destruct (s3 (log w ++ [_; _])%list _) as [v''|[e|m|c]].
  - destruct (s3 (log w ++ [_; _; _])%list _) as [u|[e|m|c]];
      cbn [snd log draws]; eexists [_]; repeat split; auto; lia.
  - cbn [snd log draws]. exists []. repeat split; auto; lia.
  - cbn [snd log draws]. exists []. repeat split; auto; lia.
  - cbn [snd log draws]. exists []. repeat split; auto; lia.
Qed.

(** C5.  When the store accepts the put of the user's object, the next and
    last call of the request is the presigning of [get_object] for the bucket
    and exactly the key just written, with [ExpiresIn] 3600; the URL it
    returns is the URL of the page, which then carries no error. *)
Theorem presigned_url_after_write (a : app) (r : request) (w : world) (f : FileStorage) :
  _auth_ok a = true -> is_post r = true ->
  file_selected r = Some f -> secure_filename (filename f) <> "" ->
  let key := "uploads/" ++ uuid_source (S (draws w)) ++ "_" ++ secure_filename (filename f) in
  let put := PutObject (WASABI_BUCKET a) key (stream f) (content_type f) in
  let before := [HeadBucket (WASABI_BUCKET a); diag_call uuid_source a w; put] in
  first_failure s3 (log w) before = None ->
  let presign := PresignGetObject (WASABI_BUCKET a) key 3600 in
  log (snd (index s3 uuid_source secure_filename a r w)) = (log w ++ before ++ [presign])%list
  /\ forall u, s3 (log w ++ before)%list presign = Returns u ->
       fst (index s3 uuid_source secure_filename a r w) =
       Ret {| url := Some u; error := None; startup_error := None;
              endpoint := s3_endpoint_host a; region := WASABI_REGION a;
              bucket := WASABI_BUCKET a |}.
Proof.
  intros Hauth Hpost Hf Hne. cbv zeta. intros Hok.
  apply String.eqb_neq in Hne.
  cbn [first_failure] in Hok.
  rewrite index_post_run by assumption. cbv zeta.
  unfold validation_error, record_call. cbn [log]. rewrite Hf, Hne.
  unfold upload_call, presign_call, upload_key.
  rewrite <- !app_assoc in Hok. cbn [List.app] in *.
  destruct (s3 (log w) (HeadBucket (WASABI_BUCKET a))) as [v|]; [|discriminate].
  destruct (s3 (log w ++ [_])%list (diag_call uuid_source a w)) as [v'|]; [|discriminate].
  destruct (s3 (log w ++ [_; _])%list _) as [v''|]; [|discriminate].
  destruct (s3 (log w ++ [_; _; _])%list _) as [u|[e|m|c]];
    (split; [reflexivity|]); intros u' Hu; inversion Hu; reflexivity.
Qed.

(** C6, as the code has it.  The bucket check makes one [head_bucket] call
    and returns [None] when it returns.  A failure is classified only when
    boto3 raises it as a [ClientError]; an exception of any other class is
    neither classified nor passed on as text: it leaves the bucket check.
    For a [ClientError] carrying a code and a
    message, the bucket check returns exactly one of four values, chosen by
    the first match on the text [<code>: <message>]: the not-found guidance
    when the text holds [NoSuchBucket] or [404], so whenever the code is one
    of these; else the permission guidance when it holds [AccessDenied] or
    [403], so whenever the code is one of these and the message holds no
    not-found word; else the region guidance when it holds
    [AuthorizationHeaderMalformed] or [301]; else the text itself.  The three
    guidance messages are pairwise different.  The not-found guidance holds
    the configured region and the [repr] of the configured bucket name, that
    is [bucket='<name>'] with the name itself for every name without a single
    quote, a backslash or an unprintable character.  Whatever the class, the
    POST is answered at once with [Bucket check failed: ] and that value: the
    bucket check is the only call of the request, so no diagnostic put and no
    real put are made. *)
Theorem bucket_check_classification (a : app) (w : world) :
  let after := {| log := (log w ++ [HeadBucket (WASABI_BUCKET a)])%list;
                  draws := draws w |} in
  match s3 (log w) (HeadBucket (WASABI_BUCKET a)) with
  | Returns _ => preflight_bucket s3 a w = (Ret None, after)
  | Raises (AttributeError _ as x) | Raises (OtherError _ as x) =>
      preflight_bucket s3 a w = (Raise x, after)
  | Raises (ClientError e) =>
  forall code msg, carries e code msg ->
  let c := Py.str_opt code in
  let m := Py.str_opt msg in
  let text := c ++ ": " ++ m in
  exists g,
    preflight_bucket s3 a w =
      (Ret (Some g), {| log := (log w ++ [HeadBucket (WASABI_BUCKET a)])%list;
                        draws := draws w |})
    /\ (if Py.contains "NoSuchBucket" text || Py.contains "404" text
        then g = not_found_message a
        else if Py.contains "AccessDenied" text || Py.contains "403" text
        then g = access_denied_message
        else if Py.contains "AuthorizationHeaderMalformed" text || Py.contains "301" text
        then g = region_mismatch_message
        else g = text)
    /\ (c = "NoSuchBucket" \/ c = "404" -> g = not_found_message a)
    /\ (c = "AccessDenied" \/ c = "403" ->
        Py.contains "NoSuchBucket" m || Py.contains "404" m = false ->
        g = access_denied_message)
    /\ (c = "AuthorizationHeaderMalformed" \/ c = "301" ->
        Py.contains "NoSuchBucket" m || Py.contains "404" m = false ->
        Py.contains "AccessDenied" m || Py.contains "403" m = false ->
        g = region_mismatch_message)
    /\ (not_found_message a <> access_denied_message
        /\ not_found_message a <> region_mismatch_message
        /\ access_denied_message <> region_mismatch_message)
    /\ (forall rg, WASABI_REGION a = Some rg ->
          Py.contains rg (not_found_message a) = true)
    /\ (forall b, WASABI_BUCKET a = Some b ->
          Py.contains (Py.repr b) (not_found_message a) = true
          /\ (unescaped b = true ->
              Py.contains ("bucket='" ++ b ++ "'") (not_found_message a) = true
              /\ Py.contains b (not_found_message a) = true))
    /\ (forall r, _auth_ok a = true -> is_post r = true ->
          index s3 uuid_source secure_filename a r w =
          (Ret {| url := None;
                  error := Some ("Bucket check failed: " ++ g);
                  startup_error := None;
                  endpoint := s3_endpoint_host a; region := WASABI_REGION a;
                  bucket := WASABI_BUCKET a |},
           {| log := (log w ++ [HeadBucket (WASABI_BUCKET a)])%list; draws := draws w |}))
  end.
Proof.
  cbv zeta.
  destruct (s3 (log w) (HeadBucket (WASABI_BUCKET a))) as [v|[e|x|x]] eqn:He;
    [rewrite preflight_bucket_run, He; reflexivity | |
     rewrite preflight_bucket_run, He; reflexivity |
     rewrite preflight_bucket_run, He; reflexivity].
  intros code msg Hcarry.
  pose proof (carries_err_text e code msg Hcarry) as Htext.
  exists (guidance a (classify (Py.str_opt code ++ ": " ++ Py.str_opt msg))
            (Py.str_opt code ++ ": " ++ Py.str_opt msg)).
  split; [rewrite preflight_bucket_run, He, Htext; reflexivity|].
  split.
  { unfold classify, guidance.
    destruct (Py.contains "NoSuchBucket" _ || Py.contains "404" _); [reflexivity|].
    destruct (Py.contains "AccessDenied" _ || Py.contains "403" _); [reflexivity|].
    destruct (Py.contains "AuthorizationHeaderMalformed" _ || Py.contains "301" _);
      reflexivity. }
  split.
  { intros [Hc | Hc]; unfold classify, guidance; rewrite Hc; through_code;
      rewrite ?orb_true_r; reflexivity. }
  split.
  { intros [Hc | Hc] Hnf; unfold classify, guidance; rewrite Hc; through_code;
      rewrite Hnf, ?orb_true_r; reflexivity. }
  split.
  { intros [Hc | Hc] Hnf Hpd; unfold classify, guidance; rewrite Hc; through_code;
      rewrite Hnf, Hpd, ?orb_true_r; reflexivity. }
  split.
  { unfold not_found_message, access_denied_message, region_mismatch_message.
    cbn [String.append]. repeat split; discriminate. }
  split; [|split].
  - intros rg Hrg. unfold not_found_message. rewrite Hrg. cbn [Py.str_opt].
    do 4 apply contains_skip. apply (contains_app "").
  - intros b Hb. unfold not_found_message. rewrite Hb. cbn [Py.repr_opt].
    split; [do 2 apply contains_skip; apply (contains_app "")|].
    intros Hb'. rewrite (repr_unescaped b Hb'). split.
    + apply contains_skip.
      change ("(bucket=" ++ String Py.squote (b ++ String Py.squote "") ++
              ", region=" ++ Py.str_opt (WASABI_REGION a) ++
              ", endpoint=" ++ Py.str_opt (WASABI_ENDPOINT a) ++ ")")
        with (String "(" ("bucket=" ++ String Py.squote (b ++ String Py.squote "") ++
              ", region=" ++ Py.str_opt (WASABI_REGION a) ++
              ", endpoint=" ++ Py.str_opt (WASABI_ENDPOINT a) ++ ")")).
      apply (contains_skip "(").
      replace ("bucket=" ++ String Py.squote (b ++ String Py.squote "") ++
               ", region=" ++ Py.str_opt (WASABI_REGION a) ++
               ", endpoint=" ++ Py.str_opt (WASABI_ENDPOINT a) ++ ")")
        with (("bucket='" ++ b ++ "'") ++
              ", region=" ++ Py.str_opt (WASABI_REGION a) ++
              ", endpoint=" ++ Py.str_opt (WASABI_ENDPOINT a) ++ ")").
      * apply (contains_app "").
      * cbn [String.append]. rewrite !append_assoc. reflexivity.
    + do 2 apply contains_skip. cbn [String.append]. rewrite append_assoc.
      apply (contains_skip (String Py.squote "")). apply (contains_app "").
  - intros r Hauth Hpost.
    rewrite index_post_run by assumption. cbv zeta. rewrite He, Htext. reflexivity.
Qed.

(** C3, as the code has it.  The handler catches [ClientError] and nothing
    else.  On a POST after a passed startup check, when the first call of the
    upload script to fail raises a [ClientError], the handler returns a page
    with no URL and a non-empty error message; when it raises an exception of
    any other class, that exception leaves the handler; when no call fails,
    and on every request that is not such a POST, the handler returns a
    page. *)
Theorem failures_at_the_handler_boundary (a : app) (r : request) (w : world) :
  match (if _auth_ok a && is_post r
         then first_failure s3 (log w) (upload_script uuid_source secure_filename a r w)
         else None) with
  | Some (ClientError e) =>
      exists p, fst (index s3 uuid_source secure_filename a r w) = Ret p
                /\ url p = None /\ Py.truthy (error p) = true
  | Some e => fst (index s3 uuid_source secure_filename a r w) = Raise e
  | None => exists p, fst (index s3 uuid_source secure_filename a r w) = Ret p
  end.
Proof.
  destruct (_auth_ok a) eqn:Hauth.
  2:{ rewrite index_startup_error by assumption. eexists; reflexivity. }
  destruct (is_post r) eqn:Hpost.
  2:{ rewrite index_not_post by assumption. eexists; reflexivity. }
  rewrite index_post_run by assumption. cbv zeta. cbn [andb].
  unfold upload_script, validation_error, record_call. cbn [first_failure log].
  destruct (s3 (log w) (HeadBucket (WASABI_BUCKET a))) as [v|[e|m|c]];
    [| eexists; repeat split; cbn [error render_template_string];
       change (Py.truthy (Some ("Bucket check failed: " ++ ?x))) with true; reflexivity
     | reflexivity | reflexivity].
  destruct (s3 (log w ++ [_])%list (diag_call uuid_source a w)) as [v'|[e|m|c]];
    [| eexists; repeat split; reflexivity | reflexivity | reflexivity].
  destruct (file_selected r) as [f|]; [|eexists; reflexivity].
  destruct (secure_filename (filename f) =? ""); [eexists; reflexivity|].
  cbn [first_failure]. rewrite <- !app_assoc. cbn [List.app].
  destruct (s3 (log w ++ [_; _])%list (upload_call _ _ a w f)) as [v''|[e|m|c]];
    [| eexists; repeat split; apply _err_text_truthy | reflexivity | reflexivity].
  destruct (s3 (log w ++ [_; _; _])%list (presign_call _ _ a w f)) as [u|[e|m|c]];
    [eexists; reflexivity | eexists; repeat split; apply _err_text_truthy
     | reflexivity | reflexivity].
Qed.

(** C1, as the code has it.  Input validation comes after the bucket check
    and the diagnostic put.  On a POST whose validation fails (no file
    selected, or a name that is empty once sanitized) the calls of the request
    are the bucket check and, when it succeeds, the diagnostic put, and no
    other: no real put and no presigning.  When both succeed the page carries
    the local message, [No file selected.] or [Invalid filename.], and no
    URL. *)
Theorem validation_failure_after_preflight (a : app) (r : request) (w : world) (msg : string) :
  _auth_ok a = true -> is_post r = true ->
  validation_error secure_filename r = Some msg ->
  let checks := [HeadBucket (WASABI_BUCKET a); diag_call uuid_source a w] in
  (msg = "No file selected." \/ msg = "Invalid filename.")
  /\ log (snd (index s3 uuid_source secure_filename a r w)) =
       (log w ++ run_script s3 (log w) checks)%list
  /\ (first_failure s3 (log w) checks = None ->
      index s3 uuid_source secure_filename a r w =
      (Ret {| url := None; error := Some msg; startup_error := None;
              endpoint := s3_endpoint_host a; region := WASABI_REGION a;
              bucket := WASABI_BUCKET a |},
       {| log := (log w ++ checks)%list; draws := S (draws w) |})).
Proof.
  intros Hauth Hpost Hval. cbv zeta. split; [|split].
  - unfold validation_error in Hval. destruct (file_selected r) as [f|].
    + destruct (secure_filename (filename f) =? ""); inversion Hval; auto.
    + inversion Hval; auto.
  - rewrite index_log, Hauth, Hpost. cbn [andb]. unfold upload_script.
    unfold validation_error in Hval. destruct (file_selected r) as [f|]; [|reflexivity].
    destruct (secure_filename (filename f) =? ""); [reflexivity | discriminate].
  - cbn [first_failure]. intros Hok.
    rewrite index_post_run by assumption. cbv zeta. unfold record_call. cbn [log].
    destruct (s3 (log w) (HeadBucket (WASABI_BUCKET a))) as [v|]; [|discriminate].
    destruct (s3 (log w ++ [_])%list (diag_call uuid_source a w)) as [v'|]; [|discriminate].
    rewrite Hval. reflexivity.
Qed.

(** C10, as the code has it.  A POST whose [file] part has an empty filename
    is handled exactly as the same POST with no [file] part.  Its calls are
    the bucket check and, when it succeeds, the diagnostic put, which writes
    the diagnostic object; nothing is put under [uploads/] and nothing is
    presigned.  When the startup check has passed and both calls succeed, the
    page carries [No file selected.], not [Invalid filename.]. *)
Theorem empty_filename_part_as_no_file (a : app) (r : request) (f : FileStorage) (w : world) :
  is_post r = true -> files r = Some f -> filename f = "" ->
  let checks := [HeadBucket (WASABI_BUCKET a); diag_call uuid_source a w] in
  index s3 uuid_source secure_filename a r w =
    index s3 uuid_source secure_filename a {| method := method r; files := None |} w
  /\ log (snd (index s3 uuid_source secure_filename a r w)) =
       (log w ++ (if _auth_ok a then run_script s3 (log w) checks else []))%list
  /\ (_auth_ok a = true -> first_failure s3 (log w) checks = None ->
      fst (index s3 uuid_source secure_filename a r w) =
      Ret {| url := None; error := Some "No file selected."; startup_error := None;
             endpoint := s3_endpoint_host a; region := WASABI_REGION a;
             bucket := WASABI_BUCKET a |}).
Proof.
  intros Hpost Hfiles Hname. cbv zeta.
  assert (Hsel : file_selected r = None)
    by (unfold file_selected; rewrite Hfiles, Hname; reflexivity).
  assert (Hpost' : is_post {| method := method r; files := None |} = true) by exact Hpost.
  split; [|split].
  - destruct (_auth_ok a) eqn:Hauth.
    + rewrite !index_post_run by assumption. cbv zeta.
      unfold validation_error. rewrite Hsel. reflexivity.
    + now rewrite !index_startup_error.
  - rewrite index_log, Hpost. destruct (_auth_ok a); [|reflexivity].
    cbn [andb]. unfold upload_script. rewrite Hsel. reflexivity.
  - intros Hauth Hok. cbn [first_failure] in Hok.
    rewrite index_post_run by assumption. cbv zeta. unfold record_call. cbn [log].
    destruct (s3 (log w) (HeadBucket (WASABI_BUCKET a))) as [v|]; [|discriminate].
    destruct (s3 (log w ++ [_])%list (diag_call uuid_source a w)) as [v'|]; [|discriminate].
    unfold validation_error. rewrite Hsel. reflexivity.
Qed.

(** C2, as the code has it.  A missing access key, secret key, region or
    endpoint makes module initialisation raise: no globals are left, the
    startup check is not reached and no call is made to the store; the
    exception is the [AttributeError] of [None.strip()], unless creating the
    session raised first.  A missing bucket alone does not stop
    initialisation and is not flagged: when boto3 accepts the three startup
    calls, the process starts with the startup check passed and no bucket,
    and its pages carry no startup error. *)
Theorem missing_configuration_at_startup (env : environ) (w : world) :
  (existsb (missing env) stripped_names = true ->
   exists e cs,
     module_init s3 env w = (Raise e, {| log := (log w ++ cs)%list; draws := draws w |})
     /\ existsb is_store_call cs = false
     /\ (e = AttributeError "'NoneType' object has no attribute 'strip'"
         \/ s3 (log w) (session_call env) = Raises e))
  /\ (existsb (missing env) stripped_names = false ->
      missing env "WASABI_BUCKET" = true ->
      first_failure s3 (log w) (startup_script env) = None ->
      exists a w1,
        module_init s3 env w = (Ret a, w1)
        /\ WASABI_BUCKET a = None /\ _auth_ok a = true /\ _auth_err a = None
        /\ forall r w2 p, fst (index s3 uuid_source secure_filename a r w2) = Ret p ->
                          startup_error p = None).
Proof.
  split.
  - apply module_init_missing.
  - intros Hpresent Hbucket Hok.
    rewrite (module_init_run s3 env w Hpresent). cbv zeta.
    unfold startup_script in Hok. cbn [first_failure] in Hok.
    rewrite <- !app_assoc in Hok. cbn [List.app] in Hok.
    destruct (s3 (log w) (session_call env)); [|discriminate].
    destruct (s3 (log w ++ [_])%list (client_call env)); [|discriminate].
    destruct (s3 (log w ++ [_; _])%list ListBuckets); [|discriminate].
    eexists _, _. split; [reflexivity|]. repeat split.
    + unfold missing in Hbucket. cbn [globals WASABI_BUCKET].
      destruct (_env env "WASABI_BUCKET" true None); [discriminate | reflexivity].
    + intros r w2 p. apply index_no_startup_error. reflexivity.
Qed.

End Claims.

(** ** The claims on concrete runs *)

Section Runs.

Import Sample.

(** C7 on a run: the store rejects the access key at startup. *)
Lemma startup_check_once_and_cached_witness :
  let s3 := store_failing is_list_buckets (ClientError invalid_access_key) in
  let a := globals environ_full false
             (Some "InvalidAccessKeyId: The access key does not exist") in
  let w1 := {| log := startup_script environ_full; draws := 0 |} in
  module_init s3 environ_full world0 = (Ret a, w1)
  /\ forall r w2,
       index s3 uuids secure_filename_ascii a r w2 =
       (Ret {| url := None; error := None;
               startup_error := Some "InvalidAccessKeyId: The access key does not exist";
               endpoint := "https://s3.us-east-1.wasabisys.com";
               region := Some "us-east-1"; bucket := Some "my-bucket" |}, w2).
Proof.
  cbv zeta. split; [reflexivity|].
  destruct (startup_check_once_and_cached
              (store_failing is_list_buckets (ClientError invalid_access_key))
              uuids secure_filename_ascii environ_full world0
              (globals environ_full false
                 (Some "InvalidAccessKeyId: The access key does not exist"))
              {| log := startup_script environ_full; draws := 0 |} eq_refl)
    as (_ & _ & _ & H).
  destruct (H eq_refl) as [_ H']. exact H'.
Defined.

(** C8 on a run: a store that accepts everything sees the four steps. *)
Lemma upload_steps_in_order_witness :
  _auth_ok app_ok = true /\ is_post post_photo = true
  /\ log (snd (index store_ok uuids secure_filename_ascii app_ok post_photo world0)) =
     [HeadBucket (Some "my-bucket");
      PutObject (Some "my-bucket") "diag/5b2c1f0e-7a44-4d53-9c1e-0f6a3b9d2e71.txt"
                "diag" "text/plain";
      PutObject (Some "my-bucket")
                "uploads/e3a9d7c4-12b8-4f60-8a3d-5c7e9b1f2a06_holiday_photo.png"
                "PNGDATA" "image/png";
      PresignGetObject (Some "my-bucket")
                "uploads/e3a9d7c4-12b8-4f60-8a3d-5c7e9b1f2a06_holiday_photo.png" 3600].
Proof.
  split; [reflexivity|]. split; [reflexivity|].
  destruct (upload_steps_in_order store_ok uuids secure_filename_ascii
              app_ok post_photo world0 eq_refl eq_refl) as [H _].
  rewrite H. reflexivity.
Defined.

(** C9 on a run: the diagnostic put against an accepting store and against a
    store that denies the put. *)
Lemma diag_put_contract_witness :
  diag_put store_ok uuids app_ok world0 =
    (Ret None,
     {| log := [PutObject (Some "my-bucket")
                  "diag/5b2c1f0e-7a44-4d53-9c1e-0f6a3b9d2e71.txt" "diag" "text/plain"];
        draws := 1 |})
  /\ fst (diag_put (store_failing is_put (ClientError invalid_access_key)) uuids app_ok world0) =
     Ret (Some "InvalidAccessKeyId: The access key does not exist").
Proof.
  split.
  - destruct (diag_put_contract store_ok uuids app_ok world0) as (Hw & _ & _ & _ & Hok).
    rewrite (surjective_pairing (diag_put store_ok uuids app_ok world0)).
    change (fst (diag_put store_ok uuids app_ok world0) = Ret None) in Hok.
    rewrite Hw, Hok. reflexivity.
  - destruct (diag_put_contract (store_failing is_put (ClientError invalid_access_key))
                uuids app_ok world0) as (_ & _ & _ & _ & Herr).
    change (forall code msg, carries invalid_access_key code msg ->
              fst (diag_put (store_failing is_put (ClientError invalid_access_key))
                            uuids app_ok world0) =
              Ret (Some (Py.str_opt code ++ ": " ++ Py.str_opt msg))) in Herr.
    exact (Herr (Some "InvalidAccessKeyId") (Some "The access key does not exist")
             (or_introl eq_refl)).
Defined.

(** C9 against the claim as stated: the store cannot be reached, the put
    raises a connection error, and the diagnostic put returns no error text:
    the exception leaves it. *)
Lemma connection_error_leaves_diag_put :
  diag_put (store_failing is_put (OtherError "EndpointConnectionError")) uuids app_ok world0 =
  (Raise (OtherError "EndpointConnectionError"),
   {| log := [PutObject (Some "my-bucket")
                "diag/5b2c1f0e-7a44-4d53-9c1e-0f6a3b9d2e71.txt" "diag" "text/plain"];
      draws := 1 |}).
Proof. reflexivity. Qed.

(** C4 on a run: the key of the uploaded photo. *)
Lemma upload_key_shape_witness :
  file_selected post_photo = Some photo
  /\ secure_filename_ascii (filename photo) = "holiday_photo.png"
  /\ exists rest,
       log (snd (index store_ok uuids secure_filename_ascii app_ok post_photo world0)) =
       HeadBucket (Some "my-bucket") :: diag_call uuids app_ok world0 ::
       PutObject (Some "my-bucket")
         "uploads/e3a9d7c4-12b8-4f60-8a3d-5c7e9b1f2a06_holiday_photo.png"
         "PNGDATA" "image/png" :: rest.
Proof.
  split; [reflexivity|]. split; [reflexivity|].
  destruct (upload_key_shape store_ok uuids secure_filename_ascii app_ok post_photo world0
              photo "holiday_photo.png" eq_refl eq_refl eq_refl eq_refl
              ltac:(discriminate) eq_refl) as (rest & H & _).
  exists rest. exact H.
Defined.

(** C5 on a run: the URL of the page is the presigned URL of the key. *)
Lemma presigned_url_after_write_witness :
  first_failure store_ok (log world0)
    [HeadBucket (Some "my-bucket"); diag_call uuids app_ok world0;
     upload_call uuids secure_filename_ascii app_ok world0 photo] = None
  /\ fst (index store_ok uuids secure_filename_ascii app_ok post_photo world0) =
     Ret {| url := Some "https://s3.example.test/uploads/e3a9d7c4-12b8-4f60-8a3d-5c7e9b1f2a06_holiday_photo.png?X-Amz-Expires=3600";
            error := None; startup_error := None;
            endpoint := "https://s3.us-east-1.wasabisys.com";
            region := Some "us-east-1"; bucket := Some "my-bucket" |}.
Proof.
  split; [reflexivity|].
  destruct (presigned_url_after_write store_ok uuids secure_filename_ascii app_ok post_photo
              world0 photo eq_refl eq_refl eq_refl ltac:(discriminate) eq_refl) as [_ H].
  exact (H _ eq_refl).
Defined.

(** C6 on a run: the store reports that the bucket does not exist. *)
Lemma bucket_check_classification_witness :
  let s3 := store_failing is_head_bucket (ClientError no_such_bucket) in
  s3 (log world0) (HeadBucket (WASABI_BUCKET app_ok)) = Raises (ClientError no_such_bucket)
  /\ carries no_such_bucket (Some "NoSuchBucket") (Some "The specified bucket does not exist")
  /\ unescaped "my-bucket" = true
  /\ Py.contains "bucket='my-bucket'" (not_found_message app_ok) = true
  /\ Py.contains "us-east-1" (not_found_message app_ok) = true
  /\ index s3 uuids secure_filename_ascii app_ok post_photo world0 =
     (Ret {| url := None;
             error := Some ("Bucket check failed: " ++ not_found_message app_ok);
             startup_error := None;
             endpoint := "https://s3.us-east-1.wasabisys.com";
             region := Some "us-east-1"; bucket := Some "my-bucket" |},
      {| log := [HeadBucket (Some "my-bucket")]; draws := 0 |}).
Proof.
  cbv zeta. split; [reflexivity|]. split; [left; reflexivity|]. split; [reflexivity|].
  pose proof (bucket_check_classification
                (store_failing is_head_bucket (ClientError no_such_bucket))
                uuids secure_filename_ascii app_ok world0) as H.
  cbv beta iota zeta delta [store_failing is_head_bucket] in H.
  destruct (H (Some "NoSuchBucket") (Some "The specified bucket does not exist")
              (or_introl eq_refl))
    as (g & _ & _ & Hnf & _ & _ & _ & Hrg & Hb & Hidx).
  split; [|split].
  - exact (proj1 (proj2 (Hb "my-bucket" eq_refl) eq_refl)).
  - exact (Hrg "us-east-1" eq_refl).
  - etransitivity; [exact (Hidx post_photo eq_refl eq_refl)|].
    rewrite (Hnf (or_introl eq_refl)). reflexivity.
Defined.

(** C6 against the claim as stated: the store cannot be reached,
    [head_bucket] raises a connection error, and the bucket check neither
    classifies the failure nor passes its text on: the exception leaves it. *)
Lemma connection_error_leaves_bucket_check :
  preflight_bucket (store_failing is_head_bucket (OtherError "EndpointConnectionError"))
                   app_ok world0 =
  (Raise (OtherError "EndpointConnectionError"),
   {| log := [HeadBucket (Some "my-bucket")]; draws := 0 |}).
Proof. reflexivity. Qed.

(** C1 on a run: a name that sanitizes to nothing. *)
Lemma validation_failure_after_preflight_witness :
  validation_error secure_filename_ascii post_dots = Some "Invalid filename."
  /\ index store_ok uuids secure_filename_ascii app_ok post_dots world0 =
     (Ret {| url := None; error := Some "Invalid filename."; startup_error := None;
             endpoint := "https://s3.us-east-1.wasabisys.com";
             region := Some "us-east-1"; bucket := Some "my-bucket" |},
      {| log := [HeadBucket (Some "my-bucket"); diag_call uuids app_ok world0];
         draws := 1 |}).
Proof.
  split; [reflexivity|].
  destruct (validation_failure_after_preflight store_ok uuids secure_filename_ascii
              app_ok post_dots world0 "Invalid filename." eq_refl eq_refl eq_refl)
    as (_ & _ & H).
  exact (H eq_refl).
Defined.

(** C1 against the claim as stated: both kinds of validation failure end with
    the local message after two calls have reached the store.  A path
    traversal name is not a validation failure at all: it is sanitized to a
    plain name and uploaded. *)
Lemma validation_failure_reaches_store :
  let run r := index store_ok uuids secure_filename_ascii app_ok r world0 in
  let checks := [HeadBucket (Some "my-bucket");
                 PutObject (Some "my-bucket")
                   "diag/5b2c1f0e-7a44-4d53-9c1e-0f6a3b9d2e71.txt" "diag" "text/plain"] in
  (files post_nothing = None
   /\ error_of (fst (run post_nothing)) = Some "No file selected."
   /\ log (snd (run post_nothing)) = checks)
  /\ (secure_filename_ascii "../.." = ""
      /\ error_of (fst (run post_dots)) = Some "Invalid filename."
      /\ log (snd (run post_dots)) = checks)
  /\ forallb is_store_call checks = true.
Proof. cbv zeta. repeat split. Qed.

Example path_traversal_name_is_sanitized :
  secure_filename_ascii "../../etc/passwd" = "etc_passwd".
Proof. reflexivity. Qed.

(** C3 against the claim as stated: the store cannot be reached, boto3 raises
    a connection error from [head_bucket], and the handler returns no page:
    the exception leaves it.  The same failure reported as a [ClientError]
    gives a page. *)
Lemma connection_error_leaves_handler :
  index (store_failing is_head_bucket (OtherError "EndpointConnectionError"))
        uuids secure_filename_ascii app_ok post_photo world0 =
    (Raise (OtherError "EndpointConnectionError"),
     {| log := [HeadBucket (Some "my-bucket")]; draws := 0 |})
  /\ error_of (fst (index (store_failing is_head_bucket (ClientError invalid_access_key))
                          uuids secure_filename_ascii app_ok post_photo world0)) =
     Some "Bucket check failed: InvalidAccessKeyId: The access key does not exist".
Proof. split; reflexivity. Qed.

(** C10 on a run: the browser sends a [file] part with an empty filename. *)
Lemma empty_filename_part_as_no_file_witness :
  is_post post_unnamed = true
  /\ index store_ok uuids secure_filename_ascii app_ok post_unnamed world0 =
     index store_ok uuids secure_filename_ascii app_ok post_nothing world0
  /\ fst (index store_ok uuids secure_filename_ascii app_ok post_unnamed world0) =
     Ret {| url := None; error := Some "No file selected."; startup_error := None;
            endpoint := "https://s3.us-east-1.wasabisys.com";
            region := Some "us-east-1"; bucket := Some "my-bucket" |}.
Proof.
  split; [reflexivity|].
  destruct (empty_filename_part_as_no_file store_ok uuids secure_filename_ascii app_ok
              post_unnamed {| filename := ""; stream := ""; mimetype := "" |} world0
              eq_refl eq_refl eq_refl) as (Hsame & _ & Hmsg).
  split; [exact Hsame | exact (Hmsg eq_refl eq_refl)].
Defined.

(** C10 against the claim as stated: the page says that no file was
    selected, and an object has been written, the diagnostic one. *)
Lemma empty_filename_part_writes_diag_object :
  error_of (fst (index store_ok uuids secure_filename_ascii app_ok post_unnamed world0)) =
    Some "No file selected."
  /\ log (snd (index store_ok uuids secure_filename_ascii app_ok post_unnamed world0)) =
     [HeadBucket (Some "my-bucket");
      PutObject (Some "my-bucket") "diag/5b2c1f0e-7a44-4d53-9c1e-0f6a3b9d2e71.txt"
                "diag" "text/plain"]
  /\ existsb is_put
       (log (snd (index store_ok uuids secure_filename_ascii app_ok post_unnamed world0))) =
     true.
Proof. repeat split. Qed.

(** C2 on runs: without an endpoint the module raises after the session was
    created; without a bucket it starts and flags nothing. *)
Lemma missing_configuration_at_startup_witness :
  (existsb (missing (without "WASABI_ENDPOINT" environ_full)) stripped_names = true
   /\ exists e cs,
        module_init store_ok (without "WASABI_ENDPOINT" environ_full) world0 =
        (Raise e, {| log := cs; draws := 0 |}) /\ existsb is_store_call cs = false)
  /\ (missing (without "WASABI_BUCKET" environ_full) "WASABI_BUCKET" = true
      /\ exists a w1,
           module_init store_ok (without "WASABI_BUCKET" environ_full) world0 = (Ret a, w1)
           /\ WASABI_BUCKET a = None /\ _auth_ok a = true).
Proof.
  split.
  - split; [reflexivity|].
    destruct (proj1 (missing_configuration_at_startup store_ok uuids secure_filename_ascii
                       (without "WASABI_ENDPOINT" environ_full) world0) eq_refl)
      as (e & cs & H & Hcs & _).
    exists e, cs. split; [exact H | exact Hcs].
  - split; [reflexivity|].
    destruct (proj2 (missing_configuration_at_startup store_ok uuids secure_filename_ascii
                       (without "WASABI_BUCKET" environ_full) world0)
                eq_refl eq_refl eq_refl)
      as (a & w1 & H & Hb & Hok & _).
    exists a, w1. repeat split; assumption.
Defined.

(** C2 against the claim as stated: without a region, and with every value
    blank, module initialisation raises and leaves no process to serve
    pages. *)
Lemma missing_region_stops_startup :
  _env (without "WASABI_REGION" environ_full) "WASABI_REGION" true None = None
  /\ module_init store_ok (without "WASABI_REGION" environ_full) world0 =
     (Raise (AttributeError "'NoneType' object has no attribute 'strip'"), world0)
  /\ _env (fun _ => Some "   ") "WASABI_ACCESS_KEY" true None = None
  /\ module_init store_ok (fun _ => Some "   ") world0 =
     (Raise (AttributeError "'NoneType' object has no attribute 'strip'"), world0).
Proof. repeat split. Qed.

End Runs.

(** ** Further properties of the code *)

Section Trimming.

Variable p : ascii -> bool.

Lemma rstrip_idempotent (s : string) : Py.rstrip p (Py.rstrip p s) = Py.rstrip p s.
Proof.
  induction s as [|c s IH]; [reflexivity|]. cbn [Py.rstrip].
  destruct (Py.rstrip p s) as [|d t] eqn:E.
  - destruct (p c) eqn:Hc; [reflexivity|]. cbn [Py.rstrip]. rewrite Hc. reflexivity.
  - remember (String d t) as u eqn:Hu. cbn [Py.rstrip]. rewrite IH, Hu. reflexivity.
Qed.

Lemma rstrip_keeps_head (c : ascii) (s : string) :
  p c = false -> exists t, Py.rstrip p (String c s) = String c t.
Proof.
  intros Hc. cbn [Py.rstrip]. destruct (Py.rstrip p s) as [|d t].
  - rewrite Hc. eexists; reflexivity.
  - eexists; reflexivity.
Qed.

Lemma lstrip_head (s : string) :
  Py.lstrip p s = "" \/ exists c t, Py.lstrip p s = String c t /\ p c = false.
Proof.
  induction s as [|c s IH]; [left; reflexivity|]. cbn [Py.lstrip].
  destruct (p c) eqn:Hc; [exact IH|]. right. exists c, s. split; [reflexivity | exact Hc].
Qed.

Lemma lstrip_rstrip_lstrip (s : string) :
  Py.lstrip p (Py.rstrip p (Py.lstrip p s)) = Py.rstrip p (Py.lstrip p s).
Proof.
  destruct (lstrip_head s) as [-> | (c & t & -> & Hc)]; [reflexivity|].
  destruct (rstrip_keeps_head c t Hc) as [t' ->]. cbn [Py.lstrip]. rewrite Hc. reflexivity.
Qed.

Lemma all_chars_app (x y : string) :
  Py.all_chars p (x ++ y) = Py.all_chars p x && Py.all_chars p y.
Proof.
  induction x as [|c x IH]; [reflexivity|]. cbn [String.append Py.all_chars].
  rewrite IH. apply andb_assoc.
Qed.

(** What [lstrip] removes is a run of characters of the class, in front. *)
Lemma lstrip_split (s : string) :
  exists lead, s = lead ++ Py.lstrip p s /\ Py.all_chars p lead = true.
Proof.
  induction s as [|c s (lead & Hs & Hlead)]; [exists ""; split; reflexivity|].
  cbn [Py.lstrip]. destruct (p c) eqn:Hc.
  - exists (String c lead). cbn [String.append Py.all_chars].
    rewrite Hc, Hlead, <- Hs. split; reflexivity.
  - exists "". split; reflexivity.
Qed.

(** What [rstrip] removes is a run of characters of the class, at the end. *)
Lemma rstrip_split (s : string) :
  exists trail, s = Py.rstrip p s ++ trail /\ Py.all_chars p trail = true.
Proof.
  induction s as [|c s (trail & Hs & Htrail)]; [exists ""; split; reflexivity|].
  cbn [Py.rstrip]. destruct (Py.rstrip p s) as [|d t].
  - cbn [String.append] in Hs. subst s. destruct (p c) eqn:Hc.
    + exists (String c trail). cbn [String.append Py.all_chars].
      rewrite Hc, Htrail. split; reflexivity.
    + exists trail. split; [reflexivity | exact Htrail].
  - exists trail. cbn [String.append]. rewrite Hs at 1. split; [reflexivity | exact Htrail].
Qed.

(** What [rstrip] leaves is empty or ends outside the class. *)
Lemma rstrip_last (s : string) :
  Py.rstrip p s = ""
  \/ exists t c, Py.rstrip p s = t ++ String c "" /\ p c = false.
Proof.
  induction s as [|c s IH]; [left; reflexivity|].
  cbn [Py.rstrip]. destruct (Py.rstrip p s) as [|d t].
  - destruct (p c) eqn:Hc; [left; reflexivity|].
    right. exists "", c. split; [reflexivity | exact Hc].
  - right. destruct IH as [IH | (t' & c' & Ht & Hc')]; [discriminate|].
    exists (String c t'), c'. cbn [String.append]. rewrite Ht. split; [reflexivity | exact Hc'].
Qed.

End Trimming.

Lemma strip_idempotent (s : string) : Py.strip (Py.strip s) = Py.strip s.
Proof.
  unfold Py.strip. rewrite lstrip_rstrip_lstrip. apply rstrip_idempotent.
Qed.

Lemma setting_env (env : environ) (name v : string) :
  _env env name true None = Some v -> setting env name = v.
Proof.
  unfold setting. intros H. rewrite H. unfold _env in H.
  destruct (match env name with Some x => Some x | None => None end) as [raw|];
    [|discriminate].
  cbv zeta in H. destruct (Py.strip raw =? ""); [discriminate|].
  inversion H. apply strip_idempotent.
Qed.

Section Slices.

Lemma length_take (n : nat) (s : string) :
  String.length (Py.take n s) = Nat.min n (String.length s).
Proof.
  revert s. induction n as [|n IH]; intros [|c s]; cbn [Py.take String.length]; auto.
  rewrite IH. reflexivity.
Qed.

Lemma length_drop (n : nat) (s : string) :
  String.length (Py.drop n s) = String.length s - n.
Proof.
  revert s. induction n as [|n IH]; intros [|c s]; cbn [Py.drop String.length]; auto.
Qed.

Lemma take_drop (n : nat) (s : string) : Py.take n s ++ Py.drop n s = s.
Proof.
  revert s. induction n as [|n IH]; intros [|c s]; cbn [Py.take Py.drop String.append]; auto.
  rewrite IH. reflexivity.
Qed.

Lemma drop_drop (n m : nat) (s : string) : Py.drop n (Py.drop m s) = Py.drop (m + n) s.
Proof.
  revert s. induction m as [|m IH]; intros s; [reflexivity|].
  destruct s as [|c s]; cbn [Py.drop Nat.add].
  - destruct n; reflexivity.
  - apply IH.
Qed.

End Slices.

Section More.

Variable s3 : list call -> call -> outcome.
Variable uuid_source : nat -> string.
Variable secure_filename : string -> string.

(** X1.  A value [_env] returns is what is left of the variable's text (of
    the default when the variable is unset) once the white space in front and
    the white space at the end are taken off: the text is that value between
    two runs of white space, and the value begins and ends with a character
    that is not white space, so it is never empty.  [_env] returns [None]
    exactly when there is no text or the text is white space throughout. *)
Theorem _env_trimmed (env : environ) (name : string) (required : bool)
    (default : option string) :
  let raw := match env name with Some x => Some x | None => default end in
  match _env env name required default with
  | Some v =>
      exists x lead trail,
        raw = Some x /\ x = lead ++ v ++ trail
        /\ Py.all_chars Py.isspace lead = true /\ Py.all_chars Py.isspace trail = true
        /\ (exists c t, v = String c t /\ Py.isspace c = false)
        /\ (exists t c, v = t ++ String c "" /\ Py.isspace c = false)
  | None => raw = None \/ exists x, raw = Some x /\ Py.all_chars Py.isspace x = true
  end.
Proof.
  cbv zeta. unfold _env.
  destruct (match env name with Some x => Some x | None => default end) as [x|];
    [|left; reflexivity].
  cbv zeta. unfold Py.strip.
  destruct (lstrip_split Py.isspace x) as (lead & Hx & Hlead).
  destruct (rstrip_split Py.isspace (Py.lstrip Py.isspace x)) as (trail & Hl & Htrail).
  destruct (Py.rstrip Py.isspace (Py.lstrip Py.isspace x) =? "") eqn:E.
  - right. exists x. split; [reflexivity|]. apply String.eqb_eq in E.
    rewrite E in Hl. cbn [String.append] in Hl.
    rewrite Hx, Hl, all_chars_app, Hlead, Htrail. reflexivity.
  - apply String.eqb_neq in E. exists x, lead, trail.
    split; [reflexivity|]. split; [rewrite <- Hl; exact Hx|].
    split; [exact Hlead|]. split; [exact Htrail|]. split.
    + destruct (lstrip_head Py.isspace x) as [H0 | (c & t & Hc & Hsp)].
      * rewrite H0 in E. contradiction E. reflexivity.
      * rewrite Hc. destruct (rstrip_keeps_head Py.isspace c t Hsp) as [t' Ht'].
        exists c, t'. split; [exact Ht' | exact Hsp].
    + destruct (rstrip_last Py.isspace (Py.lstrip Py.isspace x)) as [H0 | H]; [contradiction|].
      exact H.
Qed.

(** X2.  A module initialisation that returns has created the session and
    the client with exactly the access key, secret key, region and endpoint
    kept in the globals (the extra [.strip()] calls change nothing), has asked
    the store for [list_buckets] and nothing else, and has drawn no UUID: the
    bucket is not looked at before the first POST.  The endpoint shown on the
    pages is the configured one. *)
Theorem module_init_uses_the_globals (env : environ) (w : world) (a : app) (w1 : world) :
  module_init s3 env w = (Ret a, w1) ->
  exists ak sk rg ep,
    WASABI_ACCESS_KEY a = Some ak /\ WASABI_SECRET_KEY a = Some sk
    /\ WASABI_REGION a = Some rg /\ WASABI_ENDPOINT a = Some ep
    /\ s3_endpoint_host a = ep
    /\ WASABI_BUCKET a = _env env "WASABI_BUCKET" true None
    /\ w1 = {| log := (log w ++ [NewSession ak sk rg; NewClient ep; ListBuckets])%list;
               draws := draws w |}.
Proof.
  intros Hinit.
  assert (Hpresent : existsb (missing env) stripped_names = false).
  { destruct (existsb (missing env) stripped_names) eqn:E; [|reflexivity].
    destruct (module_init_missing s3 env w E) as (e & cs & Hr & _).
    rewrite Hr in Hinit. discriminate. }
  rewrite (module_init_run s3 env w Hpresent) in Hinit. cbv zeta in Hinit.
  unfold stripped_names, missing in Hpresent. cbn [existsb] in Hpresent.
  destruct (_env env "WASABI_ACCESS_KEY" true None) as [ak|] eqn:Eak; [|discriminate].
  destruct (_env env "WASABI_SECRET_KEY" true None) as [sk|] eqn:Esk; [|discriminate].
  destruct (_env env "WASABI_REGION" true None) as [rg|] eqn:Erg; [|discriminate].
  destruct (_env env "WASABI_ENDPOINT" true None) as [ep|] eqn:Eep; [|discriminate].
  exists ak, sk, rg, ep.
  unfold startup_script, session_call, client_call, globals in Hinit.
  rewrite (setting_env _ _ _ Eak), (setting_env _ _ _ Esk), (setting_env _ _ _ Erg),
    (setting_env _ _ _ Eep), Eak, Esk, Erg, Eep in Hinit.
  destruct (s3 (log w) _); [|discriminate].
  destruct (s3 (log w ++ [_])%list (NewClient ep)); [|discriminate].
  destruct (s3 (log w ++ [_; _])%list ListBuckets) as [v|[e|m|c]];
    inversion Hinit; subst; cbn; repeat split; reflexivity.
Qed.

(** X3.  [_mask] prints a key of at most eight characters in full.  Of a
    longer key it prints ten characters: the first four, two dots and the
    last four, which are the two ends of the key, so that the characters in
    between are not shown. *)
Theorem _mask_reveals (k : string) :
  if (String.length k <=? 8)%nat then _mask (Some k) = k
  else String.length (_mask (Some k)) = 10
       /\ exists first middle last,
            k = first ++ middle ++ last
            /\ String.length first = 4 /\ String.length last = 4
            /\ _mask (Some k) = first ++ ".." ++ last.
Proof.
  unfold _mask. destruct (String.length k <=? 8)%nat eqn:E.
  - apply Nat.leb_le in E.
    destruct (negb (k =? "") && (8 <? String.length k)%nat) eqn:E'; [|reflexivity].
    apply andb_true_iff in E' as [_ E']. apply Nat.ltb_lt in E'. lia.
  - apply Nat.leb_gt in E.
    assert (Hne : (k =? "") = false)
      by (apply String.eqb_neq; intros ->; cbn in E; lia).
    rewrite Hne. cbn [negb andb]. rewrite (proj2 (Nat.ltb_lt _ _) E).
    assert (Hfirst : String.length (Py.take 4 k) = 4) by (rewrite length_take; lia).
    assert (Hlast : String.length (Py.take_last 4 k) = 4)
      by (unfold Py.take_last; rewrite length_drop; lia).
    split.
    + rewrite !length_append, Hfirst, Hlast. reflexivity.
    + exists (Py.take 4 k), (Py.take (String.length k - 8) (Py.drop 4 k)), (Py.take_last 4 k).
      repeat split; auto.
      unfold Py.take_last.
      replace (String.length k - 4) with (4 + (String.length k - 8)) by lia.
      rewrite <- drop_drop, take_drop, take_drop. reflexivity.
Qed.

(** X4.  The bucket check and the diagnostic put each follow their one store
    call: they return [None] when the call returns, a non-empty message, hence
    a true value, when it raises a [ClientError], and they raise the call's
    own exception when it raises anything else.  So a check never reports a
    failure as a false value, never returns an empty message, and never turns
    an exception of another class into a message. *)
Theorem checks_report_failures (a : app) (w : world) :
  let verdict (c : call) (r : result (option string)) :=
    match s3 (log w) c with
    | Returns _ => r = Ret None
    | Raises (ClientError _) =>
        exists msg, r = Ret (Some msg) /\ msg <> "" /\ Py.truthy (Some msg) = true
    | Raises e => r = Raise e
    end in
  verdict (HeadBucket (WASABI_BUCKET a)) (fst (preflight_bucket s3 a w))
  /\ verdict (diag_call uuid_source a w) (fst (diag_put s3 uuid_source a w)).
Proof.
  assert (Hne : forall m, Py.truthy (Some m) = true -> m <> "")
    by (intros m H ->; discriminate).
  cbv zeta. rewrite preflight_bucket_run, diag_put_run. cbn [fst]. split.
  - destruct (s3 (log w) (HeadBucket (WASABI_BUCKET a))) as [v|[e|m|c]]; try reflexivity.
    eexists. split; [reflexivity|]. split; [apply Hne|]; apply guidance_truthy.
  - destruct (s3 (log w) (diag_call uuid_source a w)) as [v|[e|m|c]]; try reflexivity.
    eexists. split; [reflexivity|]. split; [apply Hne|]; apply _err_text_truthy.
Qed.

(** X5.  The startup has no handler for anything but a [ClientError] of
    [list_buckets].  With the four values present, module initialisation
    raises, and leaves no process, when creating the session or the client
    raises whatever exception, and when [list_buckets] raises an exception
    that is not a [ClientError] (a store that cannot be reached, say); only a
    [ClientError] of [list_buckets] is turned into the recorded startup
    error. *)
Theorem startup_failures (env : environ) (w : world) (e : exn) :
  existsb (missing env) stripped_names = false ->
  first_failure s3 (log w) (startup_script env) = Some e ->
  (forall ce, e <> ClientError ce)
  \/ first_failure s3 (log w) [session_call env; client_call env] = Some e ->
  fst (module_init s3 env w) = Raise e.
Proof.
  intros Hpresent Hfail Hkind.
  rewrite (module_init_run s3 env w Hpresent). cbv zeta.
  unfold startup_script in Hfail. cbn [first_failure] in *.
  rewrite <- !app_assoc in Hfail. cbn [List.app] in Hfail.
  destruct (s3 (log w) (session_call env)) as [v|e1];
    [|inversion Hfail; reflexivity].
  destruct (s3 (log w ++ [_])%list (client_call env)) as [v'|e2];
    [|inversion Hfail; reflexivity].
  destruct Hkind as [Hkind | Hkind]; [|discriminate].
  destruct (s3 (log w ++ [_; _])%list ListBuckets) as [v''|e3]; [discriminate|].
  inversion Hfail; subst e3. destruct e as [ce| |]; [|reflexivity|reflexivity].
  now contradiction (Hkind ce).
Qed.

(** X6.  The class of a bucket-check failure is read off the text
    [code: message] as a whole, not off the code: a [ClientError] whose
    message holds [404] or [NoSuchBucket] is answered with the not-found
    guidance whatever its code is, an [AccessDenied] code included. *)
Theorem not_found_by_message (a : app) (w : world) (code : option string) (msg : string) :
  s3 (log w) (HeadBucket (WASABI_BUCKET a)) =
    Raises (ClientError {| response_Error := Some {| Code := code; Message := Some msg |} |}) ->
  Py.contains "404" msg || Py.contains "NoSuchBucket" msg = true ->
  fst (preflight_bucket s3 a w) = Ret (Some (not_found_message a)).
Proof.
  intros He Hmsg. rewrite preflight_bucket_run, He. cbn [fst].
  unfold classify, _err_text. cbn [response_Error Code Message Py.str_opt].
  apply orb_true_iff in Hmsg as [H | H].
  - rewrite (contains_skip (Py.str_opt code) "404" (": " ++ msg)
               (contains_skip ": " "404" msg H)).
    rewrite orb_true_r. reflexivity.
  - rewrite (contains_skip (Py.str_opt code) "NoSuchBucket" (": " ++ msg)
               (contains_skip ": " "NoSuchBucket" msg H)).
    reflexivity.
Qed.

Lemma run_script_In (c : call) (cs : list call) :
  forall h, In c (run_script s3 h cs) -> In c cs.
Proof.
  induction cs as [|d cs IH]; intros h H; [exact H|].
  cbn [run_script] in H. destruct H as [-> | H]; [left; reflexivity|].
  right. destruct (succeeded (s3 h d)); [exact (IH _ H) | contradiction].
Qed.

Lemma run_script_length (cs : list call) :
  forall h, length (run_script s3 h cs) <= length cs.
Proof.
  induction cs as [|d cs IH]; intros h; cbn [run_script length]; [lia|].
  destruct (succeeded (s3 h d)); [specialize (IH (h ++ [d])%list) | cbn [length]]; lia.
Qed.

Lemma run_script_all (cs : list call) :
  forall h, first_failure s3 h cs = None -> run_script s3 h cs = cs.
Proof.
  induction cs as [|d cs IH]; intros h H; [reflexivity|].
  cbn [run_script first_failure] in *. destruct (s3 h d); [|discriminate].
  cbn [succeeded]. rewrite (IH _ H). reflexivity.
Qed.

(** The world a request leaves: its calls are added to the log, and one UUID
    has been drawn for each [put_object] among them. *)
Lemma index_world (a : app) (r : request) (w : world) :
  let cs := if _auth_ok a && is_post r
            then run_script s3 (log w) (upload_script uuid_source secure_filename a r w)
            else [] in
  snd (index s3 uuid_source secure_filename a r w) =
  {| log := (log w ++ cs)%list; draws := draws w + length (filter is_put cs) |}.
Proof.
  cbv zeta. destruct (_auth_ok a) eqn:Hauth.
  2:{ rewrite index_startup_error by assumption. cbn.
      rewrite app_nil_r, Nat.add_0_r. destruct w; reflexivity. }
  destruct (is_post r) eqn:Hpost.
  2:{ rewrite index_not_post by assumption. cbn.
      rewrite app_nil_r, Nat.add_0_r. destruct w; reflexivity. }
  rewrite index_post_run by assumption. cbv zeta. cbn [andb].
  unfold upload_script, validation_error, record_call.
  cbn [run_script log].
  destruct (s3 (log w) (HeadBucket (WASABI_BUCKET a))) as [v|[e|m|c]];
    try (cbn; rewrite Nat.add_0_r; reflexivity).
  cbn [succeeded].
  destruct (s3 (log w ++ [_])%list (diag_call uuid_source a w)) as [v'|[e|m|c]];
    try (cbn; rewrite Nat.add_1_r; reflexivity).
  cbn [succeeded].
  destruct (file_selected r) as [f|]; [|cbn; rewrite Nat.add_1_r; reflexivity].
  destruct (secure_filename (filename f) =? "");
    [cbn; rewrite Nat.add_1_r; reflexivity|].
  cbn [run_script]. rewrite <- !app_assoc. cbn [List.app].
  destruct (s3 (log w ++ [_; _])%list (upload_call _ _ a w f)) as [v''|[e|m|c]];
    try (cbn; f_equal; lia).
  cbn [succeeded].
  destruct (s3 (log w ++ [_; _; _])%list (presign_call _ _ a w f)) as [u|[e|m|c]];
    cbn; f_equal; lia.
Qed.

(** X7.  A request that is not a POST reaches neither the store nor the UUID
    source, whether the startup check passed or not: the handler returns a
    page without URL and without error and leaves the world as it was. *)
Theorem only_post_reaches_the_store (a : app) (r : request) (w : world) :
  is_post r = false ->
  exists p, index s3 uuid_source secure_filename a r w = (Ret p, w)
            /\ url p = None /\ error p = None.
Proof.
  intros Hr. destruct (_auth_ok a) eqn:Hauth.
  - rewrite index_not_post by assumption. eexists. repeat split.
  - rewrite index_startup_error by assumption. eexists. repeat split.
Qed.

(** X8.  A page carries a URL only at the end of a complete upload: the
    startup check had passed, the request was a POST with a file whose
    sanitized name is not empty, none of the four calls failed, the four are
    the calls of the request, and the URL is what the presigning returned for
    the key written; such a page carries no error. *)
Theorem url_only_after_every_step (a : app) (r : request) (w : world) (p : page) (u : string) :
  fst (index s3 uuid_source secure_filename a r w) = Ret p -> url p = Some u ->
  error p = None /\ startup_error p = None
  /\ _auth_ok a = true /\ is_post r = true
  /\ exists f,
       file_selected r = Some f /\ secure_filename (filename f) <> ""
       /\ let steps := [HeadBucket (WASABI_BUCKET a); diag_call uuid_source a w;
                        upload_call uuid_source secure_filename a w f] in
          first_failure s3 (log w) steps = None
          /\ s3 (log w ++ steps)%list (presign_call uuid_source secure_filename a w f) =
             Returns u
          /\ log (snd (index s3 uuid_source secure_filename a r w)) =
             (log w ++ steps ++ [presign_call uuid_source secure_filename a w f])%list.
Proof.
  destruct (_auth_ok a) eqn:Hauth.
  2:{ rewrite index_startup_error by assumption. intros H Hu.
      inversion H; subst p; discriminate. }
  destruct (is_post r) eqn:Hpost.
  2:{ rewrite index_not_post by assumption. intros H Hu.
      inversion H; subst p; discriminate. }
  rewrite index_post_run by assumption. cbv zeta.
  unfold validation_error, record_call. cbn [log].
  destruct (s3 (log w) (HeadBucket (WASABI_BUCKET a))) as [v|[e|m|c]] eqn:E1;
    try (intros H Hu; inversion H; subst p; discriminate).
  destruct (s3 (log w ++ [_])%list (diag_call uuid_source a w)) as [v'|[e|m|c]] eqn:E2;
    try (intros H Hu; inversion H; subst p; discriminate).
  destruct (file_selected r) as [f|];
    try (intros H Hu; inversion H; subst p; discriminate).
  destruct (secure_filename (filename f) =? "") eqn:Hn;
    try (intros H Hu; inversion H; subst p; discriminate).
  destruct (s3 (log w ++ [_; _])%list (upload_call _ _ a w f)) as [v''|[e|m|c]] eqn:E3;
    try (intros H Hu; inversion H; subst p; discriminate).
  destruct (s3 (log w ++ [_; _; _])%list (presign_call _ _ a w f)) as [u'|[e|m|c]] eqn:E4;
    try (intros H Hu; inversion H; subst p; discriminate).
  intros H Hu. inversion H; subst p. cbn in Hu. inversion Hu; subst u'.
  repeat split. exists f. split; [reflexivity|]. split; [apply String.eqb_neq, Hn|].
  cbn [first_failure]. rewrite <- !app_assoc. cbn [List.app].
  rewrite E1, E2, E3. repeat split. exact E4.
Qed.

(** X9.  One request costs the store at most four calls and the UUID source
    at most two draws, and it draws exactly one UUID for each [put_object] it
    sends: no key is written without a draw of its own. *)
Theorem request_cost (a : app) (r : request) (w : world) :
  exists cs,
    snd (index s3 uuid_source secure_filename a r w) =
      {| log := (log w ++ cs)%list; draws := draws w + length (filter is_put cs) |}
    /\ length cs <= 4 /\ length (filter is_put cs) <= 2.
Proof.
  eexists. split; [apply index_world|].
  destruct (_auth_ok a && is_post r); [|cbn; lia].
  assert (Hlen : length (upload_script uuid_source secure_filename a r w) <= 4).
  { unfold upload_script. destruct (file_selected r) as [f|]; [|cbn; lia].
    destruct (secure_filename (filename f) =? ""); cbn; lia. }
  split.
  - etransitivity; [apply run_script_length | exact Hlen].
  - unfold upload_script. cbn [run_script].
    destruct (succeeded _); [|cbn; lia]. cbn [run_script].
    destruct (succeeded _); [|cbn; lia].
    destruct (file_selected r) as [f|]; [|cbn; lia].
    destruct (secure_filename (filename f) =? ""); [cbn; lia|].
    cbn [run_script]. destruct (succeeded _); [|cbn; lia].
    cbn [run_script]. destruct (succeeded _); cbn; lia.
Qed.

(** X10.  Every call a request makes names a bucket, and it is the configured
    one: the handler never reads from or writes to another bucket, and never
    asks the store for anything that is not about that bucket. *)
Theorem calls_stay_in_the_bucket (a : app) (r : request) (w : world) :
  exists cs,
    log (snd (index s3 uuid_source secure_filename a r w)) = (log w ++ cs)%list
    /\ forall c, In c cs -> call_bucket c = Some (WASABI_BUCKET a).
Proof.
  eexists. split; [apply index_log|].
  intros c Hc. destruct (_auth_ok a && is_post r); [|contradiction].
  apply run_script_In in Hc. unfold upload_script in Hc.
  destruct Hc as [<- | [<- | Hc]]; [reflexivity | reflexivity |].
  destruct (file_selected r) as [f|]; [|contradiction].
  destruct (secure_filename (filename f) =? ""); [contradiction|].
  destruct Hc as [<- | [<- | []]]; reflexivity.
Qed.

(** X11.  Two uploads handled one after the other, both accepted by the
    store, of files with the same sanitized name: both objects are put, the
    first under the UUID of draw [1 + draws w] and the second under the UUID
    of draw [3 + draws w] (the draws in between name the diagnostic objects),
    so the second upload replaces the first exactly when the random source
    repeats itself at those two draws. *)
Theorem successive_uploads (a : app) (r1 r2 : request) (w : world)
    (f1 f2 : FileStorage) (n : string) :
  _auth_ok a = true -> is_post r1 = true -> is_post r2 = true ->
  file_selected r1 = Some f1 -> file_selected r2 = Some f2 ->
  secure_filename (filename f1) = n -> secure_filename (filename f2) = n -> n <> "" ->
  let w1 := snd (index s3 uuid_source secure_filename a r1 w) in
  let w2 := snd (index s3 uuid_source secure_filename a r2 w1) in
  first_failure s3 (log w) (upload_script uuid_source secure_filename a r1 w) = None ->
  first_failure s3 (log w1) (upload_script uuid_source secure_filename a r2 w1) = None ->
  let k1 := "uploads/" ++ uuid_source (1 + draws w) ++ "_" ++ n in
  let k2 := "uploads/" ++ uuid_source (3 + draws w) ++ "_" ++ n in
  In (PutObject (WASABI_BUCKET a) k1 (stream f1) (content_type f1)) (log w2)
  /\ In (PutObject (WASABI_BUCKET a) k2 (stream f2) (content_type f2)) (log w2)
  /\ (k1 = k2 <-> uuid_source (1 + draws w) = uuid_source (3 + draws w)).
Proof.
  intros Hauth Hp1 Hp2 Hf1 Hf2 Hn1 Hn2 Hne. cbv zeta.
  assert (Hnb : (n =? "") = false) by (apply String.eqb_neq, Hne).
  rewrite (index_world a r1 w). cbv zeta. rewrite Hauth, Hp1. cbn [andb].
  intros Hok1. rewrite (run_script_all _ _ Hok1).
  set (w1 := {| log := _; draws := _ |}).
  assert (Hd1 : draws w1 = 2 + draws w).
  { unfold w1, upload_script. rewrite Hf1, Hn1, Hnb. cbn. lia. }
  rewrite (index_world a r2 w1). cbv zeta. rewrite Hauth, Hp2. cbn [andb].
  intros Hok2. rewrite (run_script_all _ _ Hok2). cbn [log].
  split; [|split].
  - apply in_or_app. left. unfold w1. cbn [log]. apply in_or_app. right.
    unfold upload_script. rewrite Hf1, Hn1, Hnb. right. right. left.
    unfold upload_call, upload_key. rewrite Hn1. reflexivity.
  - apply in_or_app. right.
    unfold upload_script. rewrite Hf2, Hn2, Hnb. right. right. left.
    unfold upload_call, upload_key. rewrite Hn2, Hd1. reflexivity.
  - split.
    + intros H. apply append_inv_head in H. rewrite <- !append_assoc in H.
      do 2 apply append_inv_tail in H. exact H.
    + intros ->. reflexivity.
Qed.


(** X12.  When the bucket check passes and the diagnostic put fails with a
    [ClientError], the page names the failing check: its error is
    [Diagnostic PutObject failed: ] followed by the store's text.  The request
    ends after these two calls, so the file of the user is neither looked at
    nor sent, and the one UUID drawn is the diagnostic key's. *)
Theorem diagnostic_failure_stops_upload (a : app) (r : request) (w : world)
    (e : client_error) :
  _auth_ok a = true -> is_post r = true ->
  succeeded (s3 (log w) (HeadBucket (WASABI_BUCKET a))) = true ->
  s3 (log w ++ [HeadBucket (WASABI_BUCKET a)])%list (diag_call uuid_source a w) =
    Raises (ClientError e) ->
  index s3 uuid_source secure_filename a r w =
  (Ret {| url := None;
          error := Some ("Diagnostic PutObject failed: " ++ _err_text e);
          startup_error := None;
          endpoint := s3_endpoint_host a; region := WASABI_REGION a;
          bucket := WASABI_BUCKET a |},
   {| log := (log w ++ [HeadBucket (WASABI_BUCKET a); diag_call uuid_source a w])%list;
      draws := 1 + draws w |}).
Proof.
  intros Hauth Hpost Hhead Hdiag.
  rewrite index_post_run by assumption. cbv zeta. unfold record_call. cbn [log].
  destruct (s3 (log w) (HeadBucket (WASABI_BUCKET a))) as [v|]; [|discriminate].
  rewrite Hdiag. reflexivity.
Qed.

End More.

(** ** The further properties on concrete runs *)

Section MoreRuns.

Import Sample.

Lemma module_init_uses_the_globals_witness :
  module_init store_ok environ_full world0 =
    (Ret (globals environ_full true None),
     {| log := startup_script environ_full; draws := 0 |})
  /\ startup_script environ_full =
     [NewSession "AKIDEXAMPLE0001" "s3cr3tEXAMPLEs3cr3t" "us-east-1";
      NewClient "https://s3.us-east-1.wasabisys.com"; ListBuckets].
Proof.
  split; [reflexivity|].
  destruct (module_init_uses_the_globals store_ok environ_full world0
              (globals environ_full true None)
              {| log := startup_script environ_full; draws := 0 |} eq_refl)
    as (ak & sk & rg & ep & Hak & Hsk & Hrg & Hep & _ & _ & Hw).
  inversion Hak; inversion Hsk; inversion Hrg; inversion Hep; subst.
  inversion Hw. reflexivity.
Defined.

Lemma startup_failures_witness :
  let s3 := store_failing is_list_buckets (OtherError "EndpointConnectionError") in
  first_failure s3 (log world0) (startup_script environ_full) =
    Some (OtherError "EndpointConnectionError")
  /\ fst (module_init s3 environ_full world0) = Raise (OtherError "EndpointConnectionError").
Proof.
  cbv zeta. split; [reflexivity|].
  apply (startup_failures
           (store_failing is_list_buckets (OtherError "EndpointConnectionError"))
           environ_full world0 (OtherError "EndpointConnectionError") eq_refl eq_refl).
  left. discriminate.
Defined.

Lemma not_found_by_message_witness :
  let s3 := store_failing is_head_bucket (ClientError denied_with_404) in
  s3 (log world0) (HeadBucket (WASABI_BUCKET app_ok)) = Raises (ClientError denied_with_404)
  /\ fst (preflight_bucket s3 app_ok world0) = Ret (Some (not_found_message app_ok)).
Proof.
  cbv zeta. split; [reflexivity|].
  apply (not_found_by_message (store_failing is_head_bucket (ClientError denied_with_404))
           app_ok world0 (Some "AccessDenied") "Access Denied (request 4e404b12)"
           eq_refl eq_refl).
Defined.

Lemma only_post_reaches_the_store_witness :
  is_post get_page = false
  /\ exists p, index store_ok uuids secure_filename_ascii app_ok get_page world0 = (Ret p, world0)
               /\ url p = None /\ error p = None.
Proof.
  split; [reflexivity|].
  apply (only_post_reaches_the_store store_ok uuids secure_filename_ascii
           app_ok get_page world0 eq_refl).
Defined.

Lemma url_only_after_every_step_witness :
  let u := "https://s3.example.test/uploads/e3a9d7c4-12b8-4f60-8a3d-5c7e9b1f2a06_holiday_photo.png?X-Amz-Expires=3600" in
  let p := render_template_string app_ok (Some u) None None in
  fst (index store_ok uuids secure_filename_ascii app_ok post_photo world0) = Ret p
  /\ url p = Some u
  /\ length (log (snd (index store_ok uuids secure_filename_ascii app_ok post_photo world0))) = 4.
Proof.
  cbv zeta. split; [reflexivity|]. split; [reflexivity|].
  destruct (url_only_after_every_step store_ok uuids secure_filename_ascii app_ok
              post_photo world0 _ _ eq_refl eq_refl)
    as (_ & _ & _ & _ & f & _ & _ & _ & _ & Hlog).
  rewrite Hlog. reflexivity.
Defined.

Lemma successive_uploads_witness :
  let w1 := snd (index store_ok uuids secure_filename_ascii app_ok post_photo world0) in
  let w2 := snd (index store_ok uuids secure_filename_ascii app_ok post_photo w1) in
  uuids 1 <> uuids 3
  /\ "uploads/" ++ uuids 1 ++ "_holiday_photo.png" <> "uploads/" ++ uuids 3 ++ "_holiday_photo.png"
  /\ In (PutObject (Some "my-bucket") ("uploads/" ++ uuids 3 ++ "_holiday_photo.png")
                   "PNGDATA" "image/png") (log w2).
Proof.
  cbv zeta. split; [discriminate|].
  destruct (successive_uploads store_ok uuids secure_filename_ascii app_ok
              post_photo post_photo world0 photo photo "holiday_photo.png"
              eq_refl eq_refl eq_refl eq_refl eq_refl eq_refl eq_refl
              ltac:(discriminate) eq_refl eq_refl) as (_ & H2 & Hiff).
  split; [|exact H2].
  intros H. apply Hiff in H. discriminate.
Defined.


Lemma diagnostic_failure_stops_upload_witness :
  let s3 := store_failing is_put (ClientError invalid_access_key) in
  succeeded (s3 (log world0) (HeadBucket (WASABI_BUCKET app_ok))) = true
  /\ index s3 uuids secure_filename_ascii app_ok post_photo world0 =
     (Ret {| url := None;
             error := Some "Diagnostic PutObject failed: InvalidAccessKeyId: The access key does not exist";
             startup_error := None;
             endpoint := "https://s3.us-east-1.wasabisys.com";
             region := Some "us-east-1"; bucket := Some "my-bucket" |},
      {| log := [HeadBucket (Some "my-bucket"); diag_call uuids app_ok world0];
         draws := 1 |}).
Proof.
  cbv zeta. split; [reflexivity|].
  apply (diagnostic_failure_stops_upload
           (store_failing is_put (ClientError invalid_access_key))
           uuids secure_filename_ascii app_ok post_photo world0 invalid_access_key
           eq_refl eq_refl eq_refl eq_refl).
Defined.

End MoreRuns.
